(** * AsthmaShield: severity scoring, model selection, registry, prediction,
      explanation and augmentation, embedded from the Python sources.

    Python dictionaries whose iteration order is irrelevant are [gmap]s;
    dictionaries whose insertion order decides the outcome (the per-family
    training results) are association lists.  Exceptions are values of
    [exn]; a call that may raise returns [res]. Numbers that are floats in
    the program are idealised as rationals ([Q]). *)

From Stdlib Require Import ZArith QArith Qabs Ascii String Sorted Lia.
From stdpp Require Import gmap strings list fin_maps pretty.

Set Warnings "-register-all".

Local Open Scope string_scope.
Local Open Scope Z_scope.

(** ** Exceptions and fallible results *)

Inductive exn_class :=
  | FileNotFoundError
  | ValueError
  | IndexError
  | AttributeError
  | KeyError
  | RuntimeError
  | Exception.

(** A raised exception: its class and its message ([str(e)]). *)
Record exn := Raise { exn_cls : exn_class; exn_msg : string }.

Inductive res (A : Type) :=
  | Ok (a : A)
  | Err (e : exn).
Arguments Ok {A} a.
Arguments Err {A} e.

(** [res] is an error monad; stdpp's [x ← r; k] notation sequences calls
    so that the first raised exception propagates. *)
#[global] Instance res_ret : MRet res := λ A a, Ok a.
#[global] Instance res_bind : MBind res := λ A B k r,
  match r with
  | Ok a => k a
  | Err e => Err e
  end.

(** ** Severity tiers *)

Inductive tier := Low | Moderate | High.

Definition tier_rank (t : tier) : Z :=
  match t with Low => 0 | Moderate => 1 | High => 2 end.

Definition tier_le (a b : tier) : Prop := tier_rank a <= tier_rank b.

(** ** backend/asthmashield_app/data_collection.py *)

Module SymptomDataCollector.

Definition severity_map : gmap string Z :=
  <["wheezing" := 3]>
  (<["shortness_of_breath" := 3]>
  (<["chest_tightness" := 2]>
  (<["coughing" := 2]>
  (<["difficulty_sleeping" := 1]> ∅)))).

(** Body of the [for symptom, present in symptoms.items()] loop. *)
Definition loop_body (symptom : string) (present : bool) (severity_score : Z) : Z :=
  if present then
    match severity_map !! symptom with
    | Some w => severity_score + w
    | None => severity_score
    end
  else severity_score.

Definition severity_score (symptoms : gmap string bool) : Z :=
  map_fold loop_body 0 symptoms.

Definition _calculate_severity (symptoms : gmap string bool) : tier :=
  let s := severity_score symptoms in
  if 5 <=? s then High
  else if 3 <=? s then Moderate
  else Low.

End SymptomDataCollector.

(** ** backend/asthmashield_app/views.py, class SymptomReportView *)

Module SymptomReportView.

Definition severity_map : gmap string Z :=
  <["wheezing" := 3]>
  (<["shortness_of_breath" := 3]>
  (<["chest_tightness" := 2]>
  (<["coughing" := 2]>
  (<["difficulty_sleeping" := 1]> ∅)))).

Definition loop_body (symptom : string) (present : bool) (severity_score : Z) : Z :=
  if present then
    match severity_map !! symptom with
    | Some w => severity_score + w
    | None => severity_score
    end
  else severity_score.

Definition calculate_severity (symptoms : gmap string bool) : tier :=
  let severity_score := map_fold loop_body 0 symptoms in
  if 5 <=? severity_score then High
  else if 3 <=? severity_score then Moderate
  else Low.

End SymptomReportView.

(** ** Python values and the objects held by the model artifacts *)

(** Dictionaries returned to callers ([result], [explanations], payloads). *)
Inductive value :=
  | VNone
  | VStr (s : string)
  | VNum (q : Q)
  | VList (l : list value)
  | VDict (d : gmap string value).

(** [dict(pairs)]: later pairs overwrite earlier ones with the same key. *)
Definition dict_of (pairs : list (string * value)) : gmap string value :=
  foldl (λ d kv, <[kv.1 := kv.2]> d) ∅ pairs.

(** [zip(a, b)] stops at the shorter argument. *)
Definition py_zip {A B} (a : list A) (b : list B) : list (A * B) := zip a b.

Definition Matrix := list (list Q).

(** The fitted [StandardScaler] step. *)
Record Scaler := { transform : Matrix → res Matrix }.

(** The fitted classifier step: which attributes it has, and what its
    probability method answers. *)
Record Classifier := {
  has_feature_importances_ : bool;
  clf_predict_proba : option (Matrix → res Matrix)
}.

(** A fitted sklearn [Pipeline]; its prediction methods are opaque. *)
Record Pipeline := {
  scaler : Scaler;
  classifier : Classifier;
  predict : Matrix → res (list nat);
  predict_proba : option (Matrix → res Matrix)
}.

Record LabelEncoder := { classes_ : list string }.

(** [label_encoder.inverse_transform([i])[0]] *)
Definition inverse_transform (le : LabelEncoder) (i : nat) : res string :=
  match classes_ le !! i with
  | Some c => Ok c
  | None => Err (Raise ValueError "y contains previously unseen labels")
  end.

(** The model directory. [save_model] is its only writer: a file named
    [<family>_model.pkl] holds a pipeline, [label_encoder.pkl] the encoder
    and [feature_columns.pkl] the column list; the last two are shared by
    all families. *)
Record filesystem := {
  model_files : gmap string Pipeline;
  label_encoder_pkl : option LabelEncoder;
  feature_columns_pkl : option (list string)
}.

Definition file_not_found (path : string) : exn :=
  Raise FileNotFoundError ("No such file or directory: " +:+ path).

(** [os.path.exists(model_path)] for a model file. *)
Definition os_path_exists (fs : filesystem) (model_filename : string) : bool :=
  bool_decide (is_Some (model_files fs !! model_filename)).

(** [joblib.load] of a model file, of the encoder and of the columns. *)
Definition joblib_load_model (fs : filesystem) (path : string) : res Pipeline :=
  match model_files fs !! path with
  | Some p => Ok p
  | None => Err (file_not_found path)
  end.

Definition joblib_load_encoder (fs : filesystem) : res LabelEncoder :=
  match label_encoder_pkl fs with
  | Some le => Ok le
  | None => Err (file_not_found "label_encoder.pkl")
  end.

Definition joblib_load_columns (fs : filesystem) : res (list string) :=
  match feature_columns_pkl fs with
  | Some cols => Ok cols
  | None => Err (file_not_found "feature_columns.pkl")
  end.

(** ** String helpers: [str.lower()] and [str.replace(" ", "_")] on ASCII *)

Definition lower_ascii (c : Ascii.ascii) : Ascii.ascii :=
  let n := Ascii.nat_of_ascii c in
  if bool_decide (65 ≤ n ≤ 90)%nat then Ascii.ascii_of_nat (n + 32) else c.

Fixpoint lower (s : string) : string :=
  match s with
  | EmptyString => EmptyString
  | String c s' => String (lower_ascii c) (lower s')
  end.

Fixpoint replace_space_underscore (s : string) : string :=
  match s with
  | EmptyString => EmptyString
  | String c s' =>
      String (if Ascii.eqb c " "%char then "_"%char else c)
             (replace_space_underscore s')
  end.

(** [f'{name.lower().replace(" ", "_")}_model.pkl'] *)
Definition model_file (name : string) : string :=
  replace_space_underscore (lower name) +:+ "_model.pkl".

(** ** backend/asthmashield_app/ml_model/model.py: [load_model] *)

Definition default_model_file : string := "random_forest_model.pkl".

(** The path [load_model] settles on (lines 15-20). *)
Definition model_path (fs : filesystem) (model_type : string) : string :=
  let model_filename := model_file model_type in
  if os_path_exists fs model_filename then model_filename
  else default_model_file.

Definition not_found_prefix : string :=
  "Model files not found. Please train the model first using train_model.py. Error: ".

Definition load_model (fs : filesystem) (model_type : string)
  : res (Pipeline * LabelEncoder * list string) :=
  let body :=
    model ← joblib_load_model fs (model_path fs model_type);
    label_encoder ← joblib_load_encoder fs;
    feature_columns ← joblib_load_columns fs;
    Ok (model, label_encoder, feature_columns) in
  match body with
  | Ok r => Ok r
  | Err e =>
      match exn_cls e with
      | FileNotFoundError =>
          Err (Raise FileNotFoundError (not_found_prefix +:+ exn_msg e))
      | _ => Err e
      end
  end.

(** ** The feature vector *)

(** The ten positional arguments of [predict_asthma_risk] and
    [get_xai_explanation], in the order both functions list them. *)
Record Features := {
  pm25 : Q;
  pm10 : Q;
  temperature : Q;
  humidity : Q;
  pollen_level : Q;
  wind_speed : Q;
  pressure : Q;
  patient_age : Q;
  patient_history_severe_attacks : Q;
  medication_adherence : Q
}.

Definition features_list (x : Features) : list Q :=
  [pm25 x; pm10 x; temperature x; humidity x; pollen_level x;
   wind_speed x; pressure x; patient_age x;
   patient_history_severe_attacks x; medication_adherence x].

(** [seq[i]] on a Python sequence. *)
Definition py_index {A} (l : list A) (i : nat) : res A :=
  match l !! i with
  | Some a => Ok a
  | None => Err (Raise IndexError "index out of range")
  end.

Definition none_has_no_attribute (attr : string) : exn :=
  Raise AttributeError ("'NoneType' object has no attribute '" +:+ attr +:+ "'").

(** ** backend/asthmashield_app/ml_model/xai_explainer.py *)

(** The [shap] and [lime] packages as the module uses them. Every
    constructor and method may raise. *)
Inductive ShapValues :=
  | ShapList (per_class : list Matrix)
  | ShapArray (a : Matrix).

Record ShapExplainer := { shap_values : Matrix → res ShapValues }.

Record LimeExplanation := { as_list : nat → res (list (string * Q)) }.

Record LimeExplainer := {
  explain_instance :
    list Q → (Matrix → res Matrix) → nat → nat → res LimeExplanation
}.

Record Libs := {
  shap_TreeExplainer : Classifier → res ShapExplainer;
  shap_KernelExplainer : (Matrix → res Matrix) → Matrix → res ShapExplainer;
  lime_LimeTabularExplainer :
    Matrix → list string → list string → res LimeExplainer;
  np_random_rand : nat → nat → Matrix
}.

Record XAIExplainer := {
  xai_model : Pipeline;
  xai_label_encoder : LabelEncoder;
  xai_feature_columns : list string;
  xai_model_type : string;
  explainer_shap : option ShapExplainer;
  explainer_lime : option LimeExplainer
}.

(** [XAIExplainer.__init__] *)
Definition XAIExplainer_init (fs : filesystem) (model_type : string)
  : res XAIExplainer :=
  '(model, label_encoder, feature_columns) ← load_model fs model_type;
  Ok {| xai_model := model;
        xai_label_encoder := label_encoder;
        xai_feature_columns := feature_columns;
        xai_model_type := model_type;
        explainer_shap := None;
        explainer_lime := None |}.

(** Reading the classifier's [predict_proba] attribute. *)
Definition get_clf_predict_proba (c : Classifier) : res (Matrix → res Matrix) :=
  match clf_predict_proba c with
  | Some f => Ok f
  | None => Err (Raise AttributeError "predict_proba is not available")
  end.

Definition set_explainer_shap (self : XAIExplainer) (e : ShapExplainer) : XAIExplainer :=
  {| xai_model := xai_model self;
     xai_label_encoder := xai_label_encoder self;
     xai_feature_columns := xai_feature_columns self;
     xai_model_type := xai_model_type self;
     explainer_shap := Some e;
     explainer_lime := explainer_lime self |}.

Definition set_explainer_lime (self : XAIExplainer) (e : LimeExplainer) : XAIExplainer :=
  {| xai_model := xai_model self;
     xai_label_encoder := xai_label_encoder self;
     xai_feature_columns := xai_feature_columns self;
     xai_model_type := xai_model_type self;
     explainer_shap := explainer_shap self;
     explainer_lime := Some e |}.

(** [initialize_shap]: returns the flag and the updated object; the whole
    body sits in a [try] whose handler returns [False]. *)
Definition initialize_shap (libs : Libs) (self : XAIExplainer)
    (X_sample : option Matrix) : bool * XAIExplainer :=
  let clf := classifier (xai_model self) in
  let body : res ShapExplainer :=
    if has_feature_importances_ clf then shap_TreeExplainer libs clf
    else
      match X_sample with
      | Some X =>
          pp ← get_clf_predict_proba clf;
          shap_KernelExplainer libs pp X
      | None =>
          let background_data :=
            np_random_rand libs 10 (length (xai_feature_columns self)) in
          pp ← get_clf_predict_proba clf;
          shap_KernelExplainer libs pp background_data
      end in
  match body with
  | Ok e => (true, set_explainer_shap self e)
  | Err _ => (false, self)
  end.

(** [initialize_lime] *)
Definition initialize_lime (libs : Libs) (self : XAIExplainer)
    (training_data : option Matrix) : bool * XAIExplainer :=
  let body : res LimeExplainer :=
    let feature_names := xai_feature_columns self in
    lime_LimeTabularExplainer libs
      (match training_data with
       | Some t => t
       | None => np_random_rand libs 100 (length feature_names)
       end)
      feature_names
      (classes_ (xai_label_encoder self)) in
  match body with
  | Ok e => (true, set_explainer_lime self e)
  | Err _ => (false, self)
  end.

Definition shap_error_payload (e : exn) : gmap string value :=
  dict_of [("error", VStr ("SHAP explanation failed: " +:+ exn_msg e));
           ("explanation_method", VStr "SHAP")].

Definition lime_error_payload (e : exn) : gmap string value :=
  dict_of [("error", VStr ("LIME explanation failed: " +:+ exn_msg e));
           ("explanation_method", VStr "LIME")].

(** [explain_shap]: the payload and the object as the call leaves it. *)
Definition explain_shap (libs : Libs) (self : XAIExplainer) (features : list Q)
  : gmap string value * XAIExplainer :=
  let self :=
    match explainer_shap self with
    | None => (initialize_shap libs self None).2
    | Some _ => self
    end in
  let body : res (gmap string value) :=
    features_processed ← transform (scaler (xai_model self)) [features];
    ex ← match explainer_shap self with
         | Some ex => Ok ex
         | None => Err (none_has_no_attribute "shap_values")
         end;
    shap_values ← shap_values ex features_processed;
    shap_vals ← match shap_values with
                | ShapList per_class =>
                    predictions ← predict (xai_model self) [features];
                    prediction ← py_index predictions 0;
                    py_index per_class prediction
                | ShapArray a => Ok a
                end;
    row ← py_index shap_vals 0;
    let feature_importance :=
      dict_of (py_zip (xai_feature_columns self) (VNum <$> row)) in
    Ok (dict_of [("explanation_method", VStr "SHAP");
                 ("feature_importance", VDict feature_importance);
                 ("shap_values", VList (VNum <$> row))]) in
  match body with
  | Ok payload => (payload, self)
  | Err e => (shap_error_payload e, self)
  end.

(** [explain_lime] with its default [num_features=10]. *)
Definition explain_lime (libs : Libs) (self : XAIExplainer) (features : list Q)
    (num_features : nat) : gmap string value * XAIExplainer :=
  let self :=
    match explainer_lime self with
    | None => (initialize_lime libs self None).2
    | Some _ => self
    end in
  let predict_fn (x : Matrix) : res Matrix :=
    x_scaled ← transform (scaler (xai_model self)) x;
    pp ← get_clf_predict_proba (classifier (xai_model self));
    pp x_scaled in
  let body : res (gmap string value) :=
    ex ← match explainer_lime self with
         | Some ex => Ok ex
         | None => Err (none_has_no_attribute "explain_instance")
         end;
    exp ← explain_instance ex features predict_fn num_features 1%nat;
    predictions ← predict (xai_model self) [features];
    prediction ← py_index predictions 0;
    class_label ← inverse_transform (xai_label_encoder self) prediction;
    explanation ← as_list exp prediction;
    let feature_weights := dict_of (prod_map id VNum <$> explanation) in
    Ok (dict_of [("explanation_method", VStr "LIME");
                 ("predicted_class", VStr class_label);
                 ("feature_weights", VDict feature_weights);
                 ("explanation",
                   VList ((λ fw, VList [VStr fw.1; VNum fw.2]) <$> explanation))]) in
  match body with
  | Ok payload => (payload, self)
  | Err e => (lime_error_payload e, self)
  end.

(** [method in ['shap', 'both']] and [method in ['lime', 'both']] *)
Definition wants_shap (method : string) : bool :=
  bool_decide (method = "shap") || bool_decide (method = "both").

Definition wants_lime (method : string) : bool :=
  bool_decide (method = "lime") || bool_decide (method = "both").

Definition get_xai_explanation (fs : filesystem) (libs : Libs) (x : Features)
    (method : string) : gmap string value :=
  let body : res (gmap string value) :=
    let features := features_list x in
    explainer ← XAIExplainer_init fs "best";
    let explanations : gmap string value := ∅ in
    let '(explanations, explainer) :=
      if wants_shap method then
        let '(shap_explanation, explainer) := explain_shap libs explainer features in
        (<["shap" := VDict shap_explanation]> explanations, explainer)
      else (explanations, explainer) in
    let '(explanations, explainer) :=
      if wants_lime method then
        let '(lime_explanation, explainer) :=
          explain_lime libs explainer features 10%nat in
        (<["lime" := VDict lime_explanation]> explanations, explainer)
      else (explanations, explainer) in
    Ok explanations in
  match body with
  | Ok explanations => explanations
  | Err e => dict_of [("error", VStr ("XAI explanation failed: " +:+ exn_msg e))]
  end.

(** ** model.py: [predict_asthma_risk] *)

(** [max(probabilities)]; an empty sequence raises. *)
Definition Qlt_bool (a b : Q) : bool := negb (Qle_bool b a).

Definition py_max (l : list Q) : res Q :=
  match l with
  | [] => Err (Raise ValueError "max() arg is an empty sequence")
  | a :: l' => Ok (foldl (λ m b, if Qlt_bool m b then b else m) a l')
  end.

Definition value_of_option (o : option value) : value :=
  match o with
  | Some v => v
  | None => VNone
  end.

(** [import_xai_explainer] is the outcome of the statement
    [from .xai_explainer import get_xai_explanation], which loads shap and
    lime; the call itself answers a dictionary and never raises. *)
Definition predict_asthma_risk (fs : filesystem) (libs : Libs)
    (import_xai_explainer : res unit) (x : Features)
    (model_type : string) (include_xai : bool) : res (gmap string value) :=
  let body : res (gmap string value) :=
    '(model, label_encoder, feature_columns) ← load_model fs model_type;
    let features : Matrix := [features_list x] in
    predictions ← predict model features;
    prediction_encoded ← py_index predictions 0;
    probabilities ←
      match predict_proba model with
      | Some pp => rows ← pp features; row ← py_index rows 0; Ok (Some row)
      | None => Ok None
      end;
    prediction ← inverse_transform label_encoder prediction_encoded;
    confidence ←
      match probabilities with
      | Some ps => m ← py_max ps; Ok (Some m)
      | None => Ok None
      end;
    let result :=
      dict_of
        [("risk_level", VStr prediction);
         ("confidence", value_of_option (VNum <$> confidence));
         ("probabilities",
           value_of_option
             ((λ ps, VDict (dict_of (py_zip (classes_ label_encoder) (VNum <$> ps))))
                <$> probabilities))] in
    let result :=
      if include_xai then
        match import_xai_explainer with
        | Ok _ =>
            <["xai_explanations" :=
                VDict (get_xai_explanation fs libs x "both")]> result
        | Err e => <["xai_error" := VStr (exn_msg e)]> result
        end
      else result in
    Ok result in
  match body with
  | Ok result => Ok result
  | Err e => Err (Raise Exception ("Error during prediction: " +:+ exn_msg e))
  end.

(** ** backend/train_model.py: [augment_data] *)

(** A row of the frame built at lines 46-47: the features of one row of
    [X] and, in column [target], the label [y] gives that row. *)
Record Sample := { s_features : Features; s_target : nat }.

(** The random draws of one loop iteration: the integer behind
    [np.random.randint] and one standard-normal variate per column. *)
Record Draw := { raw_index : nat; gauss : Features }.

(** [np.random.randint(low, high)]: raises on an empty range; otherwise
    any index of the range can come out, and only those. *)
Definition np_random_randint (raw low high : nat) : res nat :=
  if bool_decide (low < high)%nat then Ok (low + raw mod (high - low))%nat
  else Err (Raise ValueError "low >= high").

(** [np.random.normal(loc, scale)] is [loc + scale * z] for a standard
    normal [z]; a negative scale raises. *)
Definition np_random_normal (z loc scale : Q) : res Q :=
  if Qlt_bool scale 0 then Err (Raise ValueError "scale < 0")
  else Ok (loc + scale * z)%Q.

(** The builtins [max(a, b)] and [min(a, b)]. *)
Definition py_max2 (a b : Q) : Q := if Qlt_bool a b then b else a.
Definition py_min2 (a b : Q) : Q := if Qlt_bool b a then b else a.

Definition noise_factor : Q := (1 # 10)%Q.

(** Lines 59-60 for one column. *)
Definition add_noise (v z : Q) : res Q :=
  noise ← np_random_normal z 0 (noise_factor * Qabs v)%Q;
  Ok (v + noise)%Q.

(** The loop of lines 58-60 over the ten feature columns. *)
Definition add_noise_all (f z : Features) : res Features :=
  v0 ← add_noise (pm25 f) (pm25 z);
  v1 ← add_noise (pm10 f) (pm10 z);
  v2 ← add_noise (temperature f) (temperature z);
  v3 ← add_noise (humidity f) (humidity z);
  v4 ← add_noise (pollen_level f) (pollen_level z);
  v5 ← add_noise (wind_speed f) (wind_speed z);
  v6 ← add_noise (pressure f) (pressure z);
  v7 ← add_noise (patient_age f) (patient_age z);
  v8 ← add_noise (patient_history_severe_attacks f)
                 (patient_history_severe_attacks z);
  v9 ← add_noise (medication_adherence f) (medication_adherence z);
  Ok {| pm25 := v0; pm10 := v1; temperature := v2; humidity := v3;
        pollen_level := v4; wind_speed := v5; pressure := v6;
        patient_age := v7; patient_history_severe_attacks := v8;
        medication_adherence := v9 |}.

(** Lines 63-66. *)
Definition realistic_bounds (f : Features) : Features :=
  {| pm25 := py_max2 0 (pm25 f);
     pm10 := py_max2 0 (pm10 f);
     temperature := temperature f;
     humidity := py_max2 0 (py_min2 100 (humidity f));
     pollen_level := pollen_level f;
     wind_speed := wind_speed f;
     pressure := pressure f;
     patient_age := patient_age f;
     patient_history_severe_attacks := patient_history_severe_attacks f;
     medication_adherence := py_max2 0 (py_min2 1 (medication_adherence f)) |}.

(** One iteration of the loop of lines 51-68. *)
Definition synthetic_row (df : list Sample) (d : Draw) : res Sample :=
  sample_idx ← np_random_randint (raw_index d) 0 (length df);
  sample ← py_index df sample_idx;
  noisy ← add_noise_all (s_features sample) (gauss d);
  Ok {| s_features := realistic_bounds noisy; s_target := s_target sample |}.

(** [for _ in range(n_augment)], iteration [i] using the draws [rng i]. *)
Fixpoint augment_loop (df : list Sample) (rng : nat → Draw) (i n : nat)
  : res (list Sample) :=
  match n with
  | O => Ok []
  | S n' =>
      row ← synthetic_row df (rng i);
      rest ← augment_loop df rng (S i) n';
      Ok (row :: rest)
  end.

Definition augment_data (rng : nat → Draw) (df : list Sample) (n_augment : nat)
  : res (list Features * list nat) :=
  augmented_data ← augment_loop df rng 0 n_augment;
  let combined_df := (df ++ augmented_data)%list in
  let X_combined := s_features <$> combined_df in
  let y_combined := s_target <$> combined_df in
  Ok (X_combined, y_combined).

(** ** train_model.py: training, selection, saving *)

Record FamilyResult := {
  model : Pipeline;
  accuracy : Q;
  cv_mean : Q;
  cv_std : Q;
  best_params : string;
  predictions : list nat
}.

(** An insertion-ordered dictionary with string keys. *)
Definition dict_get {V} (k : string) (d : list (string * V)) : option V :=
  snd <$> find (λ kv, bool_decide (kv.1 = k)) d.

Fixpoint dict_set {V} (k : string) (v : V) (d : list (string * V))
  : list (string * V) :=
  match d with
  | [] => [(k, v)]
  | (k', v') :: d' =>
      if bool_decide (k' = k) then (k, v) :: d' else (k', v') :: dict_set k v d'
  end.

(** The keys of [models], in the order the literal lists them. *)
Definition models : list string :=
  ["Random Forest"; "Logistic Regression"; "Gradient Boosting"; "SVM"].

(** [train_multiple_models]; [fit name] stands for the body of the [try]
    (grid search, test accuracy, cross-validation) for family [name]. *)
Definition train_multiple_models (fit : string → res FamilyResult)
  : list (string * FamilyResult) :=
  foldl
    (λ results name,
       match fit name with
       | Ok r => dict_set name r results
       | Err _ => results
       end)
    [] models.

(** [sorted(items, key=accuracy, reverse=True)]: a stable sort, so items of
    equal accuracy keep their dictionary order. *)
Fixpoint insert_desc (x : string * FamilyResult) (l : list (string * FamilyResult))
  : list (string * FamilyResult) :=
  match l with
  | [] => [x]
  | y :: l' =>
      if Qlt_bool (accuracy x.2) (accuracy y.2) then y :: insert_desc x l'
      else x :: y :: l'
  end.

Definition sorted_by_accuracy_desc (items : list (string * FamilyResult))
  : list (string * FamilyResult) :=
  foldr insert_desc [] items.

(** The loop of lines 173-181 of [evaluate_models]: for every family, in
    sorted order, the figures are printed and
    [classification_report(y_test, result['predictions'],
    target_names=le.classes_)] is called; the first call that raises ends
    the function. *)
Fixpoint print_reports
    (classification_report : list nat → list nat → list string → res string)
    (y_test : list nat) (le : LabelEncoder)
    (sorted_models : list (string * FamilyResult)) : res unit :=
  match sorted_models with
  | [] => Ok ()
  | (name, result) :: rest =>
      _ ← classification_report y_test (predictions result) (classes_ le);
      print_reports classification_report y_test le rest
  end.

(** [evaluate_models(results, y_test, le)] *)
Definition evaluate_models
    (classification_report : list nat → list nat → list string → res string)
    (results : list (string * FamilyResult)) (y_test : list nat)
    (le : LabelEncoder) : res (string * Pipeline) :=
  let sorted_models := sorted_by_accuracy_desc results in
  _ ← print_reports classification_report y_test le sorted_models;
  first ← py_index sorted_models 0;
  let best_model_name := first.1 in
  match dict_get best_model_name results with
  | Some r => Ok (best_model_name, model r)
  | None => Err (Raise KeyError best_model_name)
  end.

(** The three files [save_model] writes. *)
Definition write_model_file (fs : filesystem) (path : string) (m : Pipeline)
  : filesystem :=
  {| model_files := <[path := m]> (model_files fs);
     label_encoder_pkl := label_encoder_pkl fs;
     feature_columns_pkl := feature_columns_pkl fs |}.

Definition write_label_encoder (fs : filesystem) (le : LabelEncoder)
  : filesystem :=
  {| model_files := model_files fs;
     label_encoder_pkl := Some le;
     feature_columns_pkl := feature_columns_pkl fs |}.

Definition write_feature_columns (fs : filesystem) (cols : list string)
  : filesystem :=
  {| model_files := model_files fs;
     label_encoder_pkl := label_encoder_pkl fs;
     feature_columns_pkl := Some cols |}.

(** The model directory once all three files are written. *)
Definition all_written (fs : filesystem) (m : Pipeline) (le : LabelEncoder)
    (model_name : string) (feature_columns : list string) : filesystem :=
  write_feature_columns
    (write_label_encoder (write_model_file fs (model_file model_name) m) le)
    feature_columns.

(** [save_model]: three [joblib.dump] calls in a row, the model, then the
    label encoder, then the feature columns. [dump path] is the outcome
    of the call that writes [path]. A call that raises ends the function;
    the files written before it stay written, and its own file is taken
    to be left as it was (a file of the model directory is either absent
    or whole here). *)
Definition save_model (dump : string → res unit) (fs : filesystem)
    (m : Pipeline) (le : LabelEncoder) (model_name : string)
    (feature_columns : list string) : res unit * filesystem :=
  let model_path := model_file model_name in
  match dump model_path with
  | Err e => (Err e, fs)
  | Ok _ =>
      let fs := write_model_file fs model_path m in
      match dump "label_encoder.pkl" with
      | Err e => (Err e, fs)
      | Ok _ =>
          let fs := write_label_encoder fs le in
          match dump "feature_columns.pkl" with
          | Err e => (Err e, fs)
          | Ok _ => (Ok (), write_feature_columns fs feature_columns)
          end
      end
  end.

(** [validate_xai_compatibility]: only prints and answers a flag. *)
Definition validate_xai_compatibility (m : Pipeline) : bool :=
  match clf_predict_proba (classifier m) with
  | None => false
  | Some _ => true
  end.

Record Dataset := {
  ds_rows : list Sample;
  ds_le : LabelEncoder;
  ds_feature_columns : list string
}.

Record Split := {
  X_train : list Features;
  X_test : list Features;
  y_train : list nat;
  y_test : list nat
}.

(** What [train_model] takes from pandas, sklearn and joblib. *)
Record TrainEnv := {
  load_and_preprocess_data : res Dataset;
  rng : nat → Draw;
  train_test_split : list Features → list nat → res Split;
  grid_search : Split → string → res FamilyResult;
  classification_report : list nat → list nat → list string → res string;
  generate_risk_insights :
    list Features → list nat → LabelEncoder → list string → res unit;
  joblib_dump : string → res unit
}.

(** Lines 257-267 of [train_model]: load, augment on request, split. *)
Definition load_and_split (env : TrainEnv) (augment_data_flag : bool)
  : res (Dataset * list Features * list nat * Split) :=
  ds ← load_and_preprocess_data env;
  '(X, y_encoded) ←
    (if augment_data_flag then augment_data (rng env) (ds_rows ds) 1000
     else Ok (s_features <$> ds_rows ds, s_target <$> ds_rows ds));
  split ← train_test_split env X y_encoded;
  Ok (ds, X, y_encoded, split).

(** [train_model]: what the call returns or raises, and the model
    directory it leaves. [Ok None] is the pair [(None, None)]. *)
Definition train_model (env : TrainEnv) (fs : filesystem) (model_type : string)
    (augment_data_flag : bool)
  : res (option (Pipeline * LabelEncoder)) * filesystem :=
  match load_and_split env augment_data_flag with
  | Err e => (Err e, fs)
  | Ok (ds, X, y_encoded, split) =>
      let results := train_multiple_models (grid_search env split) in
      match results with
      | [] => (Ok None, fs)
      | _ :: _ =>
          match evaluate_models (classification_report env) results
                  (y_test split) (ds_le ds) with
          | Err e => (Err e, fs)
          | Ok (best_model_name, best_model) =>
              let _ := validate_xai_compatibility best_model in
              match generate_risk_insights env X y_encoded (ds_le ds)
                      (ds_feature_columns ds) with
              | Err e => (Err e, fs)
              | Ok _ =>
                  match save_model (joblib_dump env) fs best_model (ds_le ds)
                          best_model_name (ds_feature_columns ds) with
                  | (Err e, fs) => (Err e, fs)
                  | (Ok _, fs) => (Ok (Some (best_model, ds_le ds)), fs)
                  end
              end
          end
      end
  end.

(** ** The specification's reading of the severity total *)

(** Weight contributed by indicator [k] when it is present (mapped to
    [true]) in [m]. *)
Definition present_weight (m : gmap string bool) (k : string) (w : Z) : Z :=
  match m !! k with
  | Some true => w
  | _ => 0
  end.

(** Sum of the weights of the present recognized indicators. *)
Definition recognized_total (m : gmap string bool) : Z :=
  present_weight m "wheezing" 3
  + present_weight m "shortness_of_breath" 3
  + present_weight m "chest_tightness" 2
  + present_weight m "coughing" 2
  + present_weight m "difficulty_sleeping" 1.

Definition recognized (k : string) : Prop :=
  k = "wheezing" ∨ k = "shortness_of_breath" ∨ k = "chest_tightness"
  ∨ k = "coughing" ∨ k = "difficulty_sleeping".

#[global] Instance recognized_dec k : Decision (recognized k).
Proof. unfold recognized. apply _. Defined.

(** The mapping with every unrecognized name removed. *)
Definition recognized_only (m : gmap string bool) : gmap string bool :=
  filter (λ kv, recognized kv.1) m.

(** ** model.py: [get_feature_importance] *)

(** [importances] reads the classifier's [feature_importances_] attribute
    when it has one. Every exception is answered by [None]. *)
Definition get_feature_importance (importances : Classifier → list Q)
    (fs : filesystem) (model_type : string) : option (gmap string value) :=
  match load_model fs model_type with
  | Ok (model, label_encoder, feature_columns) =>
      if has_feature_importances_ (classifier model) then
        Some (dict_of (py_zip feature_columns
                         (VNum <$> importances (classifier model))))
      else None
  | Err _ => None
  end.

(** ** data_collection.py: the report file *)

(** A line of [symptom_reports.csv] under the header the collector writes,
    as [csv.DictReader] hands it back: one text per column. The file is
    the list of its lines after the header, which [__init__] puts in place
    and every method keeps. *)
Record ReportRow := {
  report_id : string;
  timestamp : string;
  user_id : string;
  latitude : string;
  longitude : string;
  wheezing : string;
  shortness_of_breath : string;
  chest_tightness : string;
  coughing : string;
  difficulty_sleeping : string;
  severity : string;
  verified : string
}.

(** The JSON object a report arrives as; a key may be missing. *)
Record ReportData := {
  rd_timestamp : option string;
  rd_user_id : option string;
  rd_location : option (gmap string Q);
  rd_symptoms : option (gmap string bool)
}.

(** What the collector takes from the interpreter: the builtin [hash] on
    strings, [str] of a number, and [datetime.fromisoformat] followed by
    the comparison with the bounds ([None] when either raises). *)
Record PyRuntime := {
  py_hash : string → Z;
  str_number : Q → string;
  parse_instant : string → option Z
}.

Definition str_bool (b : bool) : string := if b then "True" else "False".

Definition tier_str (t : tier) : string :=
  match t with
  | Low => "Low"
  | Moderate => "Moderate"
  | High => "High"
  end.

(** [f"rep_{hash(timestamp + user_id) % 1000000}"] *)
Definition make_report_id (rt : PyRuntime) (timestamp user_id : string) : string :=
  "rep_" +:+ pretty (py_hash rt (timestamp +:+ user_id) `mod` 1000000).

(** [save_report]: the id it returns and the file it leaves. [now] is
    [datetime.now().isoformat()] at the call. With report data of these
    shapes nothing in the body raises. *)
Definition save_report (rt : PyRuntime) (now : string) (file : list ReportRow)
    (report_data : ReportData) : string * list ReportRow :=
  let timestamp := default now (rd_timestamp report_data) in
  let user_id := default "anonymous" (rd_user_id report_data) in
  let report_id := make_report_id rt timestamp user_id in
  let location := default ∅ (rd_location report_data) in
  let latitude := from_option (str_number rt) "" (location !! "latitude") in
  let longitude := from_option (str_number rt) "" (location !! "longitude") in
  let symptoms := default ∅ (rd_symptoms report_data) in
  let wheezing := default false (symptoms !! "wheezing") in
  let shortness_of_breath := default false (symptoms !! "shortness_of_breath") in
  let chest_tightness := default false (symptoms !! "chest_tightness") in
  let coughing := default false (symptoms !! "coughing") in
  let difficulty_sleeping := default false (symptoms !! "difficulty_sleeping") in
  let severity := SymptomDataCollector._calculate_severity symptoms in
  let row :=
    {| report_id := report_id; timestamp := timestamp; user_id := user_id;
       latitude := latitude; longitude := longitude;
       wheezing := str_bool wheezing;
       shortness_of_breath := str_bool shortness_of_breath;
       chest_tightness := str_bool chest_tightness;
       coughing := str_bool coughing;
       difficulty_sleeping := str_bool difficulty_sleeping;
       severity := tier_str severity;
       verified := str_bool false |} in
  (report_id, (file ++ [row])%list).

(** [row['verified'] = 'True'] *)
Definition mark_verified (row : ReportRow) : ReportRow :=
  {| report_id := report_id row; timestamp := timestamp row;
     user_id := user_id row; latitude := latitude row;
     longitude := longitude row; wheezing := wheezing row;
     shortness_of_breath := shortness_of_breath row;
     chest_tightness := chest_tightness row; coughing := coughing row;
     difficulty_sleeping := difficulty_sleeping row;
     severity := severity row; verified := "True" |}.

(** [verify_report]: reads every line, marks the matching ones, writes
    all of them back, and answers [True]. *)
Definition verify_report (file : list ReportRow) (id : string)
  : bool * list ReportRow :=
  let rows :=
    (λ row, if bool_decide (report_id row = id) then mark_verified row else row)
      <$> file in
  (true, rows).

(** The test of [get_reports_by_timeframe] on one line: a timestamp that
    does not parse or does not compare skips the line. *)
Definition in_timeframe (rt : PyRuntime) (start_date end_date : Z)
    (row : ReportRow) : bool :=
  match parse_instant rt (timestamp row) with
  | Some report_time => (start_date <=? report_time) && (report_time <=? end_date)
  | None => false
  end.

Definition get_reports_by_timeframe (rt : PyRuntime) (file : list ReportRow)
    (start_date end_date : Z) : list ReportRow :=
  filter (λ row, in_timeframe rt start_date end_date row) file.

(** ** views.py: [SymptomReportView.post] *)



(** ** management/commands/train_xai_model.py *)





(** ** Example data and the claims as the specification words them *)

(** A pipeline that always predicts class [c]; used in the examples. *)
Definition constant_pipeline (c : nat) : Pipeline :=
  {| scaler := {| transform := λ X, Ok X |};
     classifier := {| has_feature_importances_ := false;
                      clf_predict_proba := None |};
     predict := λ X, Ok ((λ _, c) <$> X);
     predict_proba := None |}.

(** A pipeline that answers a recorded list of predictions, one per row
    it is given; used in the examples. *)
Definition replay_pipeline (answers : list nat) : Pipeline :=
  {| scaler := {| transform := λ X, Ok X |};
     classifier := {| has_feature_importances_ := false;
                      clf_predict_proba := None |};
     predict := λ X, Ok (take (length X) answers);
     predict_proba := None |}.

(** The labels of a held-out split of ten rows over three classes. *)
Definition example_y_test : list nat := [0; 0; 0; 0; 1; 1; 1; 2; 2; 2]%nat.

Definition example_encoder : LabelEncoder :=
  {| classes_ := ["High"; "Low"; "Moderate"] |}.

(** A report function with the input checks of scikit-learn's
    [classification_report]: the two label lists must be equally long, and
    the labels that occur in them must be as many as the target names.
    The text of the report is not modelled. *)
Definition checked_classification_report (y_true y_pred : list nat)
    (target_names : list string) : res string :=
  if negb (length y_true =? length y_pred)%nat then
    Err (Raise ValueError
           "Found input variables with inconsistent numbers of samples")
  else if negb (length (remove_dups (y_true ++ y_pred))
                =? length target_names)%nat then
    Err (Raise ValueError
           "Number of classes does not match size of target_names")
  else Ok "report".

(** Two families tie on test accuracy (nine of the ten labels of
    [example_y_test] each); the second has the higher cross-validation
    mean. *)
Definition tie_fit (name : string) : res FamilyResult :=
  if bool_decide (name = "Random Forest") then
    Ok {| model := replay_pipeline [1; 0; 0; 0; 1; 1; 1; 2; 2; 2]%nat;
          accuracy := (9 # 10)%Q;
          cv_mean := (80 # 100)%Q; cv_std := (1 # 100)%Q;
          best_params := "{}";
          predictions := [1; 0; 0; 0; 1; 1; 1; 2; 2; 2]%nat |}
  else if bool_decide (name = "Logistic Regression") then
    Ok {| model := replay_pipeline [0; 0; 0; 0; 1; 1; 1; 2; 2; 1]%nat;
          accuracy := (9 # 10)%Q;
          cv_mean := (85 # 100)%Q; cv_std := (1 # 100)%Q;
          best_params := "{}";
          predictions := [0; 0; 0; 0; 1; 1; 1; 2; 2; 1]%nat |}
  else Err (Raise RuntimeError "did not converge").


(** A model directory holding only [best_model.pkl]. *)
Definition only_best_model : filesystem :=
  {| model_files := {[ "best_model.pkl" := constant_pipeline 0 ]};
     label_encoder_pkl := None;
     feature_columns_pkl := None |}.

(** The claimed rule: whenever the named model artifact exists, the load
    returns it with an encoder and a column list. *)
Definition named_artifact_suffices : Prop :=
  ∀ (fs : filesystem) (model_type : string) (m : Pipeline),
    model_files fs !! model_file model_type = Some m →
    ∃ le cols, load_model fs model_type = Ok (m, le, cols).

(** The model directory with [feature_columns.pkl] rewritten. *)
Definition with_columns (fs : filesystem) (cols : list string) : filesystem :=
  {| model_files := model_files fs;
     label_encoder_pkl := label_encoder_pkl fs;
     feature_columns_pkl := Some cols |}.

(** A trained Random Forest beside a column file that lists nine names. *)
Definition nine_columns : filesystem :=
  {| model_files := {[ "random_forest_model.pkl" := constant_pipeline 0 ]};
     label_encoder_pkl := Some {| classes_ := ["High"; "Low"; "Moderate"] |};
     feature_columns_pkl :=
       Some ["pm25"; "pm10"; "temperature"; "humidity"; "pollen_level";
             "wind_speed"; "pressure"; "patient_age";
             "patient_history_severe_attacks"] |}.

(** Libraries whose every constructor raises. *)
Definition failing_libs : Libs :=
  {| shap_TreeExplainer := λ _, Err (Raise RuntimeError "shap unavailable");
     shap_KernelExplainer := λ _ _, Err (Raise RuntimeError "shap unavailable");
     lime_LimeTabularExplainer :=
       λ _ _ _, Err (Raise RuntimeError "lime unavailable");
     np_random_rand := λ rows cols, replicate rows (replicate cols 0%Q) |}.

(** The spec's scenario vector. *)
Definition scenario_features : Features :=
  {| pm25 := 92; pm10 := 135; temperature := 31; humidity := 56;
     pollen_level := 50; wind_speed := (32 # 10)%Q; pressure := 1013;
     patient_age := 35; patient_history_severe_attacks := 2;
     medication_adherence := (8 # 10)%Q |}.

(** The claimed rule: when the persisted column count differs from the
    length of the vector, prediction fails, and with a class other than the
    catch-all [Exception]. *)
Definition mismatch_is_typed_failure : Prop :=
  ∀ (fs : filesystem) (libs : Libs) (import_xai_explainer : res unit)
    (x : Features) (model_type : string) (include_xai : bool) m le cols,
    load_model fs model_type = Ok (m, le, cols) →
    length cols ≠ length (features_list x) →
    ∃ e, predict_asthma_risk fs libs import_xai_explainer x model_type
           include_xai = Err e
         ∧ exn_cls e ≠ Exception.

(** An empty model directory: nothing has been trained. *)
Definition untrained : filesystem :=
  {| model_files := ∅; label_encoder_pkl := None; feature_columns_pkl := None |}.

(** A payload that carries an [error] key. *)
Definition carries_error (payload : gmap string value) : Prop :=
  is_Some (payload !! "error").

(** A populated SHAP payload and a populated LIME payload. *)
Definition shap_populated (payload : gmap string value) : Prop :=
  is_Some (payload !! "feature_importance")
  ∧ is_Some (payload !! "shap_values")
  ∧ payload !! "error" = None.

Definition lime_populated (payload : gmap string value) : Prop :=
  is_Some (payload !! "feature_weights")
  ∧ is_Some (payload !! "predicted_class")
  ∧ payload !! "error" = None.

(** The claimed rule: method 'both' always yields a [shap] slot and a
    [lime] slot, each holding a payload. *)
Definition both_slots_always : Prop :=
  ∀ (fs : filesystem) (libs : Libs) (x : Features),
    (∃ p, get_xai_explanation fs libs x "both" !! "shap" = Some (VDict p))
    ∧ (∃ p, get_xai_explanation fs libs x "both" !! "lime" = Some (VDict p)).

(** The claimed rule: a method outside shap, lime and both always yields
    the empty mapping. *)
Definition unknown_method_gives_empty : Prop :=
  ∀ (fs : filesystem) (libs : Libs) (x : Features) (method : string),
    method ≠ "shap" → method ≠ "lime" → method ≠ "both" →
    get_xai_explanation fs libs x method = ∅.

(** The physical bounds of a row. *)
Definition within_bounds (f : Features) : Prop :=
  (0 <= pm25 f)%Q ∧ (0 <= pm10 f)%Q
  ∧ (0 <= humidity f)%Q ∧ (humidity f <= 100)%Q
  ∧ (0 <= medication_adherence f)%Q ∧ (medication_adherence f <= 1)%Q.

(** Draws that always pick index 0 and add no noise. *)
Definition still_draws (i : nat) : Draw :=
  {| raw_index := 0;
     gauss := {| pm25 := 0; pm10 := 0; temperature := 0; humidity := 0;
                 pollen_level := 0; wind_speed := 0; pressure := 0;
                 patient_age := 0; patient_history_severe_attacks := 0;
                 medication_adherence := 0 |} |}.

Definition scenario_sample : Sample :=
  {| s_features := scenario_features; s_target := 1 |}.

(** The claimed rule: for every table, every count and every draw, the
    call returns [len + n] rows whose synthetic part is within bounds. *)
Definition augment_always_returns : Prop :=
  ∀ (rng : nat → Draw) (df : list Sample) (n : nat),
    ∃ X y,
      augment_data rng df n = Ok (X, y)
      ∧ length X = (length df + n)%nat
      ∧ ∀ i f, (length df ≤ i)%nat → X !! i = Some f → within_bounds f.

(** A table of fifty rows, five for each label of [example_y_test], whose
    split holds out the first ten. *)
Definition example_rows : list Sample :=
  (λ label, {| s_features := scenario_features; s_target := label |})
    <$> concat (replicate 5 example_y_test).

Definition example_dataset : Dataset :=
  {| ds_rows := example_rows;
     ds_le := example_encoder;
     ds_feature_columns :=
       ["pm25"; "pm10"; "temperature"; "humidity"; "pollen_level";
        "wind_speed"; "pressure"; "patient_age";
        "patient_history_severe_attacks"; "medication_adherence"] |}.

Definition example_split (X : list Features) (y : list nat) : res Split :=
  Ok {| X_train := drop 10 X; X_test := take 10 X;
        y_train := drop 10 y; y_test := take 10 y |}.

(** A training run in which data loading and splitting succeed and every
    family's grid search raises. *)
Definition no_family_trains : TrainEnv :=
  {| load_and_preprocess_data := Ok example_dataset;
     rng := still_draws;
     train_test_split := example_split;
     grid_search := λ _ _, Err (Raise ValueError "numerical failure");
     classification_report := checked_classification_report;
     generate_risk_insights := λ _ _ _ _, Ok ();
     joblib_dump := λ _, Ok () |}.

(** A training run in which Random Forest and Logistic Regression train
    (see [tie_fit]) and the other two families raise. *)
Definition two_families_train : TrainEnv :=
  {| load_and_preprocess_data := Ok example_dataset;
     rng := still_draws;
     train_test_split := example_split;
     grid_search := λ _, tie_fit;
     classification_report := checked_classification_report;
     generate_risk_insights := λ _ _ _ _, Ok ();
     joblib_dump := λ _, Ok () |}.

(** The claimed rule: when every family's search raises, the training
    call raises. *)
Definition all_failures_raise : Prop :=
  ∀ (env : TrainEnv) (fs : filesystem) (model_type : string) (aug : bool),
    (∀ split name, ∃ e, grid_search env split name = Err e) →
    ∃ e, (train_model env fs model_type aug).1 = Err e.

(** A family whose search returned. *)
Definition trained {A} (r : res A) : bool :=
  match r with
  | Ok _ => true
  | Err _ => false
  end.

(** The ten feature columns, as projections of a row. *)
Definition feature_column_values : list (Features → Q) :=
  [pm25; pm10; temperature; humidity; pollen_level; wind_speed; pressure;
   patient_age; patient_history_severe_attacks; medication_adherence].

(** The severity a line of the report file should carry, recomputed
    from its five symptom columns. *)
Definition flag_weight (flag : string) (w : Z) : Z :=
  if bool_decide (flag = "True") then w else 0.

Definition row_total (row : ReportRow) : Z :=
  flag_weight (wheezing row) 3
  + flag_weight (shortness_of_breath row) 3
  + flag_weight (chest_tightness row) 2
  + flag_weight (coughing row) 2
  + flag_weight (difficulty_sleeping row) 1.

Definition row_consistent (row : ReportRow) : Prop :=
  severity row =
    if 5 <=? row_total row then "High"
    else if 3 <=? row_total row then "Moderate"
    else "Low".

(** Two lines that differ at most in the [verified] column. *)
Definition same_but_verified (r1 r2 : ReportRow) : Prop :=
  report_id r2 = report_id r1 ∧ timestamp r2 = timestamp r1
  ∧ user_id r2 = user_id r1 ∧ latitude r2 = latitude r1
  ∧ longitude r2 = longitude r1 ∧ wheezing r2 = wheezing r1
  ∧ shortness_of_breath r2 = shortness_of_breath r1
  ∧ chest_tightness r2 = chest_tightness r1
  ∧ coughing r2 = coughing r1
  ∧ difficulty_sleeping r2 = difficulty_sleeping r1
  ∧ severity r2 = severity r1.

(** A runtime for the examples: every string hashes to 42, numbers print
    as "n", nothing parses as a date. *)
Definition example_runtime : PyRuntime :=
  {| py_hash := λ _, 42; str_number := λ _, "n"; parse_instant := λ _, None |}.

(** Two different reports whose timestamp and user id concatenate to the
    same text. *)
Definition report_ab_c : ReportData :=
  {| rd_timestamp := Some "ab"; rd_user_id := Some "c";
     rd_location := None; rd_symptoms := Some {[ "wheezing" := true ]} |}.

Definition report_a_bc : ReportData :=
  {| rd_timestamp := Some "a"; rd_user_id := Some "bc";
     rd_location := None; rd_symptoms := None |}.



(** ** Severity: lemmas *)

Section severity_facts.
Import SymptomDataCollector.

Lemma severity_map_lookup k :
  severity_map !! k =
    if decide (k = "wheezing") then Some 3
    else if decide (k = "shortness_of_breath") then Some 3
    else if decide (k = "chest_tightness") then Some 2
    else if decide (k = "coughing") then Some 2
    else if decide (k = "difficulty_sleeping") then Some 1
    else None.
Proof.
  unfold severity_map.
  repeat (rewrite lookup_insert; case_decide; [subst; repeat case_decide; congruence|]).
  rewrite lookup_empty. repeat case_decide; congruence.
Qed.

Lemma loop_body_comm j1 z1 j2 z2 y :
  loop_body j1 z1 (loop_body j2 z2 y) = loop_body j2 z2 (loop_body j1 z1 y).
Proof.
  unfold loop_body.
  destruct z1, z2, (severity_map !! j1), (severity_map !! j2); lia.
Qed.

Lemma present_weight_insert_ne (m : gmap string bool) i x k w :
  i ≠ k → present_weight (<[i:=x]> m) k w = present_weight m k w.
Proof. intros ?. unfold present_weight. by rewrite lookup_insert_ne. Qed.

Lemma present_weight_insert_eq (m : gmap string bool) i (x : bool) w :
  present_weight (<[i:=x]> m) i w = if x then w else 0.
Proof. unfold present_weight. rewrite lookup_insert_eq. by destruct x. Qed.

Lemma present_weight_absent (m : gmap string bool) k w :
  m !! k = None → present_weight m k w = 0.
Proof. unfold present_weight. by intros ->. Qed.

Lemma recognized_total_insert_fresh (m : gmap string bool) i (x : bool) :
  m !! i = None →
  recognized_total (<[i:=x]> m) = loop_body i x (recognized_total m).
Proof.
  intros Hi. unfold recognized_total, loop_body.
  rewrite severity_map_lookup.
  repeat case_decide; subst;
    rewrite ?present_weight_insert_eq, ?present_weight_insert_ne by congruence;
    rewrite ?(present_weight_absent m _ _ Hi); destruct x; lia.
Qed.

(** The loop computes the specification's total. *)
Lemma severity_score_total m : severity_score m = recognized_total m.
Proof.
  unfold severity_score.
  induction m as [|i x m Hi IH] using map_ind.
  - by rewrite map_fold_empty.
  - rewrite map_fold_insert_L; [|intros; apply loop_body_comm|done].
    rewrite IH. symmetry. by apply recognized_total_insert_fresh.
Qed.

Lemma recognized_total_bounds m : 0 <= recognized_total m <= 11.
Proof.
  unfold recognized_total, present_weight.
  repeat match goal with |- context [m !! ?k] => destruct (m !! k) as [[]|] end; lia.
Qed.

End severity_facts.

(** ** Severity: the claims *)

Section severity_claims.
Import SymptomDataCollector.

Lemma present_weight_le (m : gmap string bool) k w :
  0 <= w → 0 <= present_weight m k w <= w.
Proof. unfold present_weight. destruct (m !! k) as [[]|]; lia. Qed.

Lemma present_weight_insert_true (m : gmap string bool) i k w :
  0 <= w → present_weight m k w <= present_weight (<[i:=true]> m) k w.
Proof.
  intros Hw. destruct (decide (i = k)) as [->|Hne].
  - rewrite present_weight_insert_eq. apply present_weight_le, Hw.
  - rewrite present_weight_insert_ne by done. lia.
Qed.

Lemma recognized_total_insert_true (m : gmap string bool) i :
  recognized_total m <= recognized_total (<[i:=true]> m).
Proof.
  unfold recognized_total.
  pose proof (present_weight_insert_true m i "wheezing" 3).
  pose proof (present_weight_insert_true m i "shortness_of_breath" 3).
  pose proof (present_weight_insert_true m i "chest_tightness" 2).
  pose proof (present_weight_insert_true m i "coughing" 2).
  pose proof (present_weight_insert_true m i "difficulty_sleeping" 1).
  lia.
Qed.

Lemma present_weight_recognized_only (m : gmap string bool) k w :
  recognized k → present_weight (recognized_only m) k w = present_weight m k w.
Proof.
  intros Hk. unfold present_weight, recognized_only.
  rewrite map_lookup_filter. destruct (m !! k) as [b|]; simpl; [|done].
  by rewrite option_guard_True.
Qed.

Lemma recognized_total_recognized_only (m : gmap string bool) :
  recognized_total (recognized_only m) = recognized_total m.
Proof.
  unfold recognized_total.
  rewrite !present_weight_recognized_only; [done|unfold recognized; auto 10..].
Qed.

Lemma calculate_severity_total (m : gmap string bool) :
  _calculate_severity m =
    if 5 <=? recognized_total m then High
    else if 3 <=? recognized_total m then Moderate
    else Low.
Proof. unfold _calculate_severity. by rewrite severity_score_total. Qed.

(** C2: the tier is High exactly when the weights of the present recognized
    indicators sum to at least 5, Moderate exactly when they sum to 3 or 4,
    Low exactly when they sum to less than 3; removing every unrecognized
    name changes nothing (the function is total, so no name is an error);
    wheezing with shortness of breath is High, coughing alone is Low. *)
Theorem severity_thresholds (symptoms : gmap string bool) :
  (_calculate_severity symptoms = High ↔ 5 <= recognized_total symptoms)
  ∧ (_calculate_severity symptoms = Moderate
       ↔ 3 <= recognized_total symptoms <= 4)
  ∧ (_calculate_severity symptoms = Low ↔ recognized_total symptoms < 3)
  ∧ _calculate_severity (recognized_only symptoms) = _calculate_severity symptoms
  ∧ _calculate_severity {[ "wheezing" := true; "shortness_of_breath" := true ]}
      = High
  ∧ _calculate_severity {[ "coughing" := true ]} = Low.
Proof.
  rewrite !calculate_severity_total, recognized_total_recognized_only.
  repeat split; try (vm_compute; reflexivity);
    repeat case_match; intros; try discriminate; try reflexivity; lia.
Qed.

(** C7: the collector's [_calculate_severity] and the view's
    [calculate_severity] return the same tier on every mapping. *)
Theorem severity_implementations_agree (symptoms : gmap string bool) :
  SymptomDataCollector._calculate_severity symptoms
  = SymptomReportView.calculate_severity symptoms.
Proof.
  unfold SymptomDataCollector._calculate_severity,
    SymptomReportView.calculate_severity, SymptomDataCollector.severity_score.
  reflexivity.
Qed.

(** C9: turning a recognized indicator that is absent or false to true
    never lowers the tier (Low < Moderate < High), and equal inputs give
    equal tiers. *)
Theorem severity_monotone (symptoms : gmap string bool) (k : string) :
  recognized k →
  symptoms !! k ≠ Some true →
  tier_le (_calculate_severity symptoms)
          (_calculate_severity (<[k := true]> symptoms))
  ∧ ∀ symptoms' : gmap string bool,
      symptoms' = symptoms →
      _calculate_severity symptoms' = _calculate_severity symptoms.
Proof.
  intros _ _. split; [|by intros ? ->].
  rewrite !calculate_severity_total.
  pose proof (recognized_total_insert_true symptoms k).
  unfold tier_le. repeat case_match; simpl; lia.
Qed.

Lemma severity_monotone_witness :
  tier_le (_calculate_severity {[ "coughing" := true ]})
          (_calculate_severity (<["wheezing" := true]> {[ "coughing" := true ]}))
  ∧ ∀ symptoms' : gmap string bool,
      symptoms' = {[ "coughing" := true ]} →
      _calculate_severity symptoms' = _calculate_severity {[ "coughing" := true ]}.
Proof.
  apply (severity_monotone {[ "coughing" := true ]} "wheezing").
  - left. reflexivity.
  - vm_compute. discriminate.
Defined.

End severity_claims.

(** ** Model selection *)

Section selection.

Lemma Qlt_bool_true (a b : Q) : Qlt_bool a b = true ↔ (a < b)%Q.
Proof.
  unfold Qlt_bool. rewrite negb_true_iff, <- not_true_iff_false, Qle_bool_iff.
  split; [apply Qnot_le_lt | apply Qlt_not_le].
Qed.

Lemma Qlt_bool_false (a b : Q) : Qlt_bool a b = false ↔ (b <= a)%Q.
Proof.
  unfold Qlt_bool. rewrite negb_false_iff. apply Qle_bool_iff.
Qed.

(** [sorted_by_accuracy_desc] is a sort: it permutes its argument and
    leaves it in non-increasing order of accuracy. *)
Lemma insert_desc_perm x l : insert_desc x l ≡ₚ x :: l.
Proof.
  induction l as [|y l IH]; simpl; [done|].
  case_match; [|done]. rewrite IH. apply Permutation_swap.
Qed.

Lemma sorted_by_accuracy_desc_perm l : sorted_by_accuracy_desc l ≡ₚ l.
Proof.
  induction l as [|x l IH]; simpl; [done|].
  by rewrite insert_desc_perm, IH.
Qed.

Lemma insert_desc_sorted x l :
  Sorted (λ a b, (accuracy b.2 <= accuracy a.2)%Q) l →
  Sorted (λ a b, (accuracy b.2 <= accuracy a.2)%Q) (insert_desc x l).
Proof.
  induction 1 as [|y l Hs IH Hhd]; simpl; [by repeat constructor|].
  destruct (Qlt_bool (accuracy x.2) (accuracy y.2)) eqn:Hxy.
  - apply Qlt_bool_true in Hxy. constructor; [done|].
    destruct l as [|z l]; simpl in *.
    + constructor. by apply Qlt_le_weak.
    + case_match; constructor; [by inversion Hhd|by apply Qlt_le_weak].
  - apply Qlt_bool_false in Hxy. repeat constructor; done.
Qed.

Lemma sorted_by_accuracy_desc_sorted l :
  Sorted (λ a b, (accuracy b.2 <= accuracy a.2)%Q) (sorted_by_accuracy_desc l).
Proof.
  induction l as [|x l IH]; simpl; [constructor|]. by apply insert_desc_sorted.
Qed.

Lemma head_insert_desc x l :
  head (insert_desc x l) =
    Some (match head l with
          | None => x
          | Some y => if Qlt_bool (accuracy x.2) (accuracy y.2) then y else x
          end).
Proof. destruct l as [|y l]; simpl; [done|]. by case_match. Qed.

(** The head of the sorted items is the first item of highest accuracy. *)
Lemma sorted_head_first_max (items : list (string * FamilyResult)) :
  items ≠ [] →
  ∃ before x after,
    items = (before ++ x :: after)%list
    ∧ head (sorted_by_accuracy_desc items) = Some x
    ∧ (∀ y, y ∈ before → (accuracy y.2 < accuracy x.2)%Q)
    ∧ (∀ y, y ∈ after → (accuracy y.2 <= accuracy x.2)%Q).
Proof.
  induction items as [|a l IH]; [done|]. intros _.
  change (sorted_by_accuracy_desc (a :: l))
    with (insert_desc a (sorted_by_accuracy_desc l)).
  rewrite head_insert_desc.
  destruct l as [|b l'].
  - exists [], a, []. simpl. repeat split; intros y Hy; inversion Hy.
  - destruct IH as (before & x & after & Heq & Hhead & Hlt & Hle); [done|].
    rewrite Hhead.
    destruct (Qlt_bool (accuracy a.2) (accuracy x.2)) eqn:Hax.
    + apply Qlt_bool_true in Hax.
      exists (a :: before), x, after. rewrite Heq. repeat split; [|done].
      intros y [->|Hy]%elem_of_cons; auto.
    + apply Qlt_bool_false in Hax.
      exists [], a, (b :: l'). repeat split; [intros y Hy; inversion Hy|].
      intros y Hy. rewrite Heq in Hy.
      apply elem_of_app in Hy as [Hy|[->|Hy]%elem_of_cons].
      * eapply Qle_trans; [apply Qlt_le_weak, Hlt, Hy|done].
      * done.
      * eapply Qle_trans; [apply Hle, Hy|done].
Qed.

Lemma dict_get_NoDup {V} (d : list (string * V)) k v :
  NoDup d.*1 → (k, v) ∈ d → dict_get k d = Some v.
Proof.
  unfold dict_get. induction d as [|[k' v'] d IH]; intros Hnd Hin.
  - inversion Hin.
  - simpl in *. apply NoDup_cons in Hnd as [Hk' Hnd].
    apply elem_of_cons in Hin as [[= -> ->]|Hin].
    + by rewrite bool_decide_eq_true_2.
    + rewrite bool_decide_eq_false_2; [by apply IH|].
      intros ->. apply Hk'. apply list_elem_of_fmap. by exists (k, v).
Qed.

End selection.


Lemma print_reports_err report y_test le (l : list (string * FamilyResult)) e :
  print_reports report y_test le l = Err e →
  ∃ kv, kv ∈ l ∧ report y_test (predictions kv.2) (classes_ le) = Err e.
Proof.
  induction l as [|[name r] l IH]; simpl; [done|].
  destruct (report y_test (predictions r) (classes_ le)) as [txt|e'] eqn:Hr; simpl.
  - intros (kv & Hin & Hkv)%IH. exists kv. split; [by right|done].
  - intros [= ->]. exists (name, r). split; [by left|done].
Qed.


(** Of a non-empty dictionary with distinct keys, [evaluate_models] raises
    only what a family's report raised. *)
Lemma evaluate_models_err report (results : list (string * FamilyResult))
    y_test le e :
  results ≠ [] →
  NoDup results.*1 →
  evaluate_models report results y_test le = Err e →
  ∃ kv, kv ∈ results ∧ report y_test (predictions kv.2) (classes_ le) = Err e.
Proof.
  intros Hne Hnd. unfold evaluate_models.
  destruct (print_reports report y_test le (sorted_by_accuracy_desc results))
    as [[]|e'] eqn:Hp; simpl.
  - destruct (sorted_head_first_max results Hne)
      as (before & [name r] & after & Heq & Hhead & _).
    unfold py_index. rewrite <- head_lookup, Hhead. simpl.
    rewrite (dict_get_NoDup results name r); [done..|].
    rewrite Heq. apply elem_of_app. right. left.
  - intros [= ->]. apply print_reports_err in Hp as (kv & Hin & Hkv).
    exists kv. split; [|done]. by rewrite <- (sorted_by_accuracy_desc_perm results).
Qed.

(** Of a non-empty dictionary with distinct keys, [evaluate_models] is the
    report loop followed by the choice of the first family of highest
    accuracy. *)
Lemma evaluate_models_select report (results : list (string * FamilyResult))
    y_test le :
  results ≠ [] →
  NoDup results.*1 →
  ∃ before name r after,
    results = (before ++ (name, r) :: after)%list
    ∧ (∀ y, y ∈ before → (accuracy y.2 < accuracy r)%Q)
    ∧ (∀ y, y ∈ after → (accuracy y.2 <= accuracy r)%Q)
    ∧ evaluate_models report results y_test le =
        match print_reports report y_test le (sorted_by_accuracy_desc results) with
        | Ok _ => Ok (name, model r)
        | Err e => Err e
        end.
Proof.
  intros Hne Hnd.
  destruct (sorted_head_first_max results Hne)
    as (before & [name r] & after & Heq & Hhead & Hlt & Hle).
  exists before, name, r, after. repeat split; [done..|].
  unfold evaluate_models.
  destruct (print_reports report y_test le (sorted_by_accuracy_desc results));
    simpl; [|done].
  unfold py_index. rewrite <- head_lookup, Hhead. simpl.
  rewrite (dict_get_NoDup results name r); [done..|].
  rewrite Heq. apply elem_of_app. right. left.
Qed.




(** ** Registry: [load_model] *)

Section registry.

Lemma model_path_named (fs : filesystem) (model_type : string) :
  is_Some (model_files fs !! model_file model_type) →
  model_path fs model_type = model_file model_type.
Proof.
  intros H. unfold model_path, os_path_exists. by rewrite bool_decide_eq_true_2.
Qed.

Lemma model_path_fallback (fs : filesystem) (model_type : string) :
  model_files fs !! model_file model_type = None →
  model_path fs model_type = default_model_file.
Proof.
  intros H. unfold model_path, os_path_exists.
  rewrite bool_decide_eq_false_2; [done|]. rewrite H. by intros [? ?].
Qed.

(** [load_model] succeeds exactly when the three files it settles on are
    there, and then returns their contents. *)
Lemma load_model_ok (fs : filesystem) (model_type : string) m le cols :
  load_model fs model_type = Ok (m, le, cols)
  ↔ model_files fs !! model_path fs model_type = Some m
    ∧ label_encoder_pkl fs = Some le
    ∧ feature_columns_pkl fs = Some cols.
Proof.
  unfold load_model, joblib_load_model, joblib_load_encoder, joblib_load_columns.
  destruct (model_files fs !! model_path fs model_type) as [m'|];
    destruct (label_encoder_pkl fs) as [le'|];
    destruct (feature_columns_pkl fs) as [cols'|]; simpl;
    split; try (intros [= -> -> ->]; done); try (intros ([=] & [=] & [=]); by subst);
    try discriminate; intros (? & ? & ?); discriminate.
Qed.

(** Every failure of [load_model] is a [FileNotFoundError] carrying the
    fixed prefix. *)
Lemma load_model_err (fs : filesystem) (model_type : string) e :
  load_model fs model_type = Err e →
  ∃ msg, e = Raise FileNotFoundError (not_found_prefix +:+ msg).
Proof.
  unfold load_model, joblib_load_model, joblib_load_encoder, joblib_load_columns.
  destruct (model_files fs !! model_path fs model_type);
    destruct (label_encoder_pkl fs);
    destruct (feature_columns_pkl fs); simpl; intros [= <-]; eauto.
Qed.

Lemma load_model_fails_iff (fs : filesystem) (model_type : string) :
  (∃ e, load_model fs model_type = Err e)
  ↔ model_files fs !! model_path fs model_type = None
    ∨ label_encoder_pkl fs = None
    ∨ feature_columns_pkl fs = None.
Proof.
  unfold load_model, joblib_load_model, joblib_load_encoder, joblib_load_columns.
  destruct (model_files fs !! model_path fs model_type);
    destruct (label_encoder_pkl fs);
    destruct (feature_columns_pkl fs); simpl;
    split; eauto; try (intros [? [=]]); intros [[=]|[[=]|[=]]].
Qed.

End registry.

(** C8, as the code has it: a name whose model file is absent resolves to
    the default family's file [random_forest_model.pkl], a name whose file
    exists resolves to that file; the load returns the resolved model with
    the label encoder and the feature columns exactly when all three files
    are present, fails exactly when the resolved model file, the encoder
    file or the columns file is absent, and every failure is the typed
    [FileNotFoundError]. *)
Theorem load_model_resolution (fs : filesystem) (model_type : string) :
  (model_files fs !! model_file model_type = None →
     model_path fs model_type = default_model_file)
  ∧ (is_Some (model_files fs !! model_file model_type) →
       model_path fs model_type = model_file model_type)
  ∧ (∀ m le cols,
       load_model fs model_type = Ok (m, le, cols)
       ↔ model_files fs !! model_path fs model_type = Some m
         ∧ label_encoder_pkl fs = Some le
         ∧ feature_columns_pkl fs = Some cols)
  ∧ ((∃ e, load_model fs model_type = Err e)
       ↔ model_files fs !! model_path fs model_type = None
         ∨ label_encoder_pkl fs = None
         ∨ feature_columns_pkl fs = None)
  ∧ (∀ e, load_model fs model_type = Err e → exn_cls e = FileNotFoundError).
Proof.
  split; [apply model_path_fallback|].
  split; [apply model_path_named|].
  split; [intros; apply load_model_ok|].
  split; [apply load_model_fails_iff|].
  intros e He. by destruct (load_model_err _ _ _ He) as [msg ->].
Qed.

(** C8 as stated fails: with [best_model.pkl] present and no encoder or
    column file, loading "best" raises instead of returning the triple. *)
Lemma named_artifact_alone_fails :
  model_files only_best_model !! model_file "best" = Some (constant_pipeline 0)
  ∧ load_model only_best_model "best"
    = Err (Raise FileNotFoundError
             (not_found_prefix +:+ "No such file or directory: label_encoder.pkl"))
  ∧ ¬ named_artifact_suffices.
Proof.
  split; [reflexivity|]. split; [reflexivity|].
  intros H.
  destruct (H only_best_model "best" (constant_pipeline 0) eq_refl)
    as (le & cols & Hload).
  discriminate Hload.
Qed.

(** ** Prediction: [predict_asthma_risk] *)

Section prediction.

Lemma model_path_with_columns fs cols model_type :
  model_path (with_columns fs cols) model_type = model_path fs model_type.
Proof. reflexivity. Qed.

(** The column file only travels through [load_model]. *)
Lemma load_model_with_columns fs cols cols' model_type :
  load_model (with_columns fs cols') model_type =
    match load_model (with_columns fs cols) model_type with
    | Ok (m, le, _) => Ok (m, le, cols')
    | Err e => Err e
    end.
Proof.
  unfold load_model, joblib_load_model, joblib_load_encoder, joblib_load_columns.
  rewrite !model_path_with_columns. simpl.
  destruct (model_files fs !! model_path fs model_type); simpl; [|done].
  by destruct (label_encoder_pkl fs).
Qed.

End prediction.

(** C3, as the code has it: [predict_asthma_risk] always builds a vector of
    ten values; it never compares it with the persisted feature columns, so
    without explanations its outcome is the same whatever the column file
    lists; and every failure it raises, artifact and inference failures
    included, is the catch-all [Exception] with the message prefix
    "Error during prediction: ". *)
Theorem predict_never_checks_columns (fs : filesystem) (libs : Libs)
    (import_xai_explainer : res unit) (x : Features) (model_type : string)
    (include_xai : bool) :
  length (features_list x) = 10%nat
  ∧ (∀ cols cols',
       predict_asthma_risk (with_columns fs cols) libs import_xai_explainer x
         model_type false
       = predict_asthma_risk (with_columns fs cols') libs import_xai_explainer x
           model_type false)
  ∧ (∀ e, predict_asthma_risk fs libs import_xai_explainer x model_type
            include_xai = Err e →
          ∃ msg, e = Raise Exception ("Error during prediction: " +:+ msg)).
Proof.
  split; [reflexivity|]. split.
  - intros cols cols'. unfold predict_asthma_risk.
    rewrite (load_model_with_columns fs cols cols').
    destruct (load_model (with_columns fs cols) model_type) as [[[m le] c]|e];
      reflexivity.
  - intros e. unfold predict_asthma_risk.
    match goal with |- match ?b with _ => _ end = _ → _ => destruct b end;
      intros [= <-]; eauto.
Qed.

(** C3 as stated fails: with nine persisted column names and a vector of
    ten values the call returns a prediction; no typed failure is raised. *)
Lemma column_mismatch_predicts_silently :
  (∃ m le cols,
     load_model nine_columns "best" = Ok (m, le, cols) ∧ length cols = 9%nat)
  ∧ (∃ result,
       predict_asthma_risk nine_columns failing_libs (Ok ()) scenario_features
         "best" false
         = Ok result
       ∧ result !! "risk_level" = Some (VStr "High"))
  ∧ ¬ mismatch_is_typed_failure.
Proof.
  split; [by eexists _, _, _|].
  split; [eexists; split; [reflexivity|by vm_compute]|].
  intros H.
  edestruct (H nine_columns failing_libs (Ok ()) scenario_features "best" false)
    as (e & He & _); [reflexivity|vm_compute; lia|].
  discriminate He.
Qed.

(** ** Explanation: [get_xai_explanation] *)

Section explanation.

Ltac split_binds :=
  unfold mbind, res_bind, py_index, inverse_transform, get_clf_predict_proba;
  repeat (case_match; simpl in *; simplify_eq).

Lemma shap_payload_populated fi sv :
  shap_populated
    (dict_of [("explanation_method", VStr "SHAP");
              ("feature_importance", fi); ("shap_values", sv)]).
Proof. repeat split; vm_compute; eauto. Qed.

Lemma lime_payload_populated c fw ex :
  lime_populated
    (dict_of [("explanation_method", VStr "LIME"); ("predicted_class", c);
              ("feature_weights", fw); ("explanation", ex)]).
Proof. repeat split; vm_compute; eauto. Qed.

Lemma shap_error_payload_error e : carries_error (shap_error_payload e).
Proof. unfold carries_error, shap_error_payload. vm_compute. eauto. Qed.

Lemma lime_error_payload_error e : carries_error (lime_error_payload e).
Proof. unfold carries_error, lime_error_payload. vm_compute. eauto. Qed.

(** Whatever happens inside, [explain_shap] answers a payload that either
    carries an error or is populated. *)
Lemma explain_shap_payload libs self features :
  carries_error (explain_shap libs self features).1
  ∨ shap_populated (explain_shap libs self features).1.
Proof.
  unfold explain_shap.
  match goal with
  | |- context [match ?b with Ok _ => _ | Err _ => _ end] =>
      destruct b as [payload|e] eqn:Hbody
  end; simpl.
  - right. revert Hbody. split_binds; intros; simplify_eq;
      apply shap_payload_populated.
  - left. apply shap_error_payload_error.
Qed.

Lemma explain_lime_payload libs self features n :
  carries_error (explain_lime libs self features n).1
  ∨ lime_populated (explain_lime libs self features n).1.
Proof.
  unfold explain_lime.
  match goal with
  | |- context [match ?b with Ok _ => _ | Err _ => _ end] =>
      destruct b as [payload|e] eqn:Hbody
  end; simpl.
  - right. revert Hbody. split_binds; intros; simplify_eq;
      apply lime_payload_populated.
  - left. apply lime_error_payload_error.
Qed.

(** [explain_shap] touches no field that [explain_lime] reads. *)
Lemma explain_shap_frame libs self features :
  let self' := (explain_shap libs self features).2 in
  xai_model self' = xai_model self
  ∧ xai_label_encoder self' = xai_label_encoder self
  ∧ xai_feature_columns self' = xai_feature_columns self
  ∧ explainer_lime self' = explainer_lime self.
Proof.
  unfold explain_shap, initialize_shap. simpl.
  repeat case_match; simpl; done.
Qed.

Lemma explain_lime_payload_ext libs self self' features n :
  xai_model self' = xai_model self →
  xai_label_encoder self' = xai_label_encoder self →
  xai_feature_columns self' = xai_feature_columns self →
  explainer_lime self' = explainer_lime self →
  (explain_lime libs self' features n).1 = (explain_lime libs self features n).1.
Proof.
  destruct self, self'. simpl. intros -> -> -> ->.
  unfold explain_lime, initialize_lime. simpl.
  repeat case_match; simpl in *; simplify_eq; congruence.
Qed.

End explanation.

(** C4, as the code has it: method 'both' never raises (the function is
    total). When the explainer object is constructed, the result holds
    exactly a [shap] and a [lime] slot, each either populated or carrying an
    [error] key, and the [lime] payload is the one the freshly constructed
    explainer gives, whatever happened to SHAP. When construction fails
    (the model artifacts do not load), the result is the single top-level
    [error] entry, with no [shap] and no [lime] slot. *)
Theorem both_slots_when_explainer_constructed (fs : filesystem) (libs : Libs)
    (x : Features) :
  match XAIExplainer_init fs "best" with
  | Ok explainer =>
      let shap := (explain_shap libs explainer (features_list x)).1 in
      let lime := (explain_lime libs explainer (features_list x) 10).1 in
      get_xai_explanation fs libs x "both"
        = <["lime" := VDict lime]> (<["shap" := VDict shap]> ∅)
      ∧ (carries_error shap ∨ shap_populated shap)
      ∧ (carries_error lime ∨ lime_populated lime)
  | Err e =>
      get_xai_explanation fs libs x "both"
        = {[ "error" := VStr ("XAI explanation failed: " +:+ exn_msg e) ]}
      ∧ get_xai_explanation fs libs x "both" !! "shap" = None
      ∧ get_xai_explanation fs libs x "both" !! "lime" = None
  end.
Proof.
  unfold get_xai_explanation.
  destruct (XAIExplainer_init fs "best") as [explainer|e]; simpl.
  - destruct (explain_shap libs explainer (features_list x))
      as [shap explainer'] eqn:Hshap.
    pose proof (explain_shap_frame libs explainer (features_list x)) as Hframe.
    pose proof (explain_shap_payload libs explainer (features_list x)) as Hps.
    rewrite Hshap in Hframe, Hps. simpl in Hframe, Hps.
    destruct Hframe as (Hm & Hle & Hc & Hl).
    pose proof (explain_lime_payload_ext libs explainer explainer'
                  (features_list x) 10 Hm Hle Hc Hl) as Hext.
    pose proof (explain_lime_payload libs explainer (features_list x) 10) as Hpl.
    destruct (explain_lime libs explainer' (features_list x) 10)
      as [lime explainer''].
    simpl in *. subst lime. done.
  - split; [reflexivity|]. split; reflexivity.
Qed.

(** C4 as stated fails: with no trained artifacts, method 'both' returns
    only a top-level error entry. *)
Lemma missing_artifacts_drop_both_slots :
  get_xai_explanation untrained failing_libs scenario_features "both"
    = {[ "error" :=
           VStr ("XAI explanation failed: " +:+ not_found_prefix
                 +:+ "No such file or directory: random_forest_model.pkl") ]}
  ∧ ¬ both_slots_always.
Proof.
  split; [reflexivity|].
  intros H.
  destruct (H untrained failing_libs scenario_features) as [[p Hp] _].
  vm_compute in Hp. discriminate Hp.
Qed.

(** C10, as the code has it: for a method other than 'shap', 'lime' and
    'both' the result never has a [shap] or a [lime] slot; it is the empty
    mapping when the explainer object is constructed, and the single
    top-level [error] entry when construction fails. *)
Theorem unknown_method_no_slots (fs : filesystem) (libs : Libs)
    (x : Features) (method : string) :
  method ≠ "shap" → method ≠ "lime" → method ≠ "both" →
  match XAIExplainer_init fs "best" with
  | Ok _ => get_xai_explanation fs libs x method = ∅
  | Err e =>
      get_xai_explanation fs libs x method
        = {[ "error" := VStr ("XAI explanation failed: " +:+ exn_msg e) ]}
  end
  ∧ get_xai_explanation fs libs x method !! "shap" = None
  ∧ get_xai_explanation fs libs x method !! "lime" = None.
Proof.
  intros Hs Hl Hb. unfold get_xai_explanation, wants_shap, wants_lime.
  rewrite !bool_decide_eq_false_2 by done. simpl.
  destruct (XAIExplainer_init fs "best"); simpl; done.
Qed.

Lemma unknown_method_no_slots_witness :
  get_xai_explanation nine_columns failing_libs scenario_features "additive" = ∅
  ∧ get_xai_explanation nine_columns failing_libs scenario_features "additive"
      !! "shap" = None
  ∧ get_xai_explanation nine_columns failing_libs scenario_features "additive"
      !! "lime" = None.
Proof.
  apply (unknown_method_no_slots nine_columns failing_libs scenario_features
           "additive"); discriminate.
Defined.

(** C10 as stated fails: with no trained artifacts, method 'additive'
    returns a mapping that has an [error] key. *)
Lemma unknown_method_can_carry_error :
  get_xai_explanation untrained failing_libs scenario_features "additive"
    = {[ "error" :=
           VStr ("XAI explanation failed: " +:+ not_found_prefix
                 +:+ "No such file or directory: random_forest_model.pkl") ]}
  ∧ ¬ unknown_method_gives_empty.
Proof.
  split; [reflexivity|].
  intros H.
  specialize (H untrained failing_libs scenario_features "additive").
  assert (Hlook :
    get_xai_explanation untrained failing_libs scenario_features "additive"
      !! "error" = None).
  { rewrite H by discriminate. apply lookup_empty. }
  vm_compute in Hlook. discriminate Hlook.
Qed.

(** ** Augmentation: [augment_data] *)

Section augmentation.

Lemma py_max2_lower (a b : Q) : (a <= py_max2 a b)%Q.
Proof.
  unfold py_max2. destruct (Qlt_bool a b) eqn:H.
  - apply Qlt_le_weak. by apply Qlt_bool_true.
  - apply Qle_refl.
Qed.

Lemma py_max2_upper (a b c : Q) : (a <= c)%Q → (b <= c)%Q → (py_max2 a b <= c)%Q.
Proof. unfold py_max2. by destruct (Qlt_bool a b). Qed.

Lemma py_min2_upper (a b : Q) : (py_min2 a b <= a)%Q.
Proof.
  unfold py_min2. destruct (Qlt_bool b a) eqn:H.
  - apply Qlt_le_weak. by apply Qlt_bool_true.
  - apply Qle_refl.
Qed.

Lemma realistic_bounds_within (f : Features) : within_bounds (realistic_bounds f).
Proof.
  unfold within_bounds, realistic_bounds. simpl.
  repeat split; try apply py_max2_lower;
    apply py_max2_upper; try apply py_min2_upper; done.
Qed.

(** The scale handed to [np.random.normal] is never negative. *)
Lemma add_noise_ok (v z : Q) : ∃ v', add_noise v z = Ok v'.
Proof.
  unfold add_noise, np_random_normal.
  assert (H : Qlt_bool (noise_factor * Qabs v) 0 = false).
  { apply Qlt_bool_false. apply Qmult_le_0_compat; [done|apply Qabs_nonneg]. }
  rewrite H. simpl. eauto.
Qed.

Lemma add_noise_all_ok (f z : Features) : ∃ f', add_noise_all f z = Ok f'.
Proof.
  unfold add_noise_all.
  repeat match goal with
  | |- context [add_noise ?v ?w] =>
      let v' := fresh "v" in
      destruct (add_noise_ok v w) as [v' ->]; simpl
  end.
  eauto.
Qed.

Lemma np_random_randint_ok (raw high : nat) :
  (0 < high)%nat →
  ∃ i, np_random_randint raw 0 high = Ok i ∧ (i < high)%nat.
Proof.
  intros H. unfold np_random_randint. rewrite bool_decide_eq_true_2 by done.
  eexists; split; [done|]. rewrite Nat.sub_0_r. simpl.
  apply Nat.mod_upper_bound. lia.
Qed.

Lemma synthetic_row_ok (df : list Sample) (d : Draw) :
  df ≠ [] →
  ∃ row, synthetic_row df d = Ok row ∧ within_bounds (s_features row).
Proof.
  intros Hne. unfold synthetic_row.
  destruct (np_random_randint_ok (raw_index d) (length df)) as (i & -> & Hi).
  { destruct df; [done|simpl; lia]. }
  simpl. unfold py_index.
  destruct (lookup_lt_is_Some_2 df i Hi) as [sample ->]. simpl.
  destruct (add_noise_all_ok (s_features sample) (gauss d)) as [noisy ->]. simpl.
  eexists; split; [done|]. apply realistic_bounds_within.
Qed.

Lemma augment_loop_ok (df : list Sample) (rng : nat → Draw) (n i : nat) :
  df ≠ [] ∨ n = 0%nat →
  ∃ rows,
    augment_loop df rng i n = Ok rows
    ∧ length rows = n
    ∧ Forall (λ row, within_bounds (s_features row)) rows.
Proof.
  revert i. induction n as [|n IH]; intros i Hne; simpl.
  - exists []. by repeat split.
  - destruct Hne as [Hne|?]; [|done].
    destruct (synthetic_row_ok df (rng i) Hne) as (row & -> & Hrow). simpl.
    destruct (IH (S i) (or_introl Hne)) as (rows & -> & Hlen & Hall). simpl.
    exists (row :: rows). repeat split; [by rewrite <- Hlen|by constructor].
Qed.

End augmentation.

(** C5, as the code has it: for a table with at least one row (or with
    [n = 0]), whatever the draws, the call returns [len(df) + n] rows, the
    original rows first and unchanged, and every synthetic row has
    [pm25 ≥ 0], [pm10 ≥ 0], [0 ≤ humidity ≤ 100] and
    [0 ≤ medication_adherence ≤ 1]. *)
Theorem augment_data_rows_and_bounds (rng : nat → Draw) (df : list Sample)
    (n : nat) :
  df ≠ [] ∨ n = 0%nat →
  ∃ X y,
    augment_data rng df n = Ok (X, y)
    ∧ length X = (length df + n)%nat
    ∧ length y = (length df + n)%nat
    ∧ take (length df) X = s_features <$> df
    ∧ ∀ i f, (length df ≤ i)%nat → X !! i = Some f → within_bounds f.
Proof.
  intros Hne. unfold augment_data.
  destruct (augment_loop_ok df rng n 0 Hne) as (rows & -> & Hlen & Hall). simpl.
  eexists _, _. split; [done|].
  rewrite !length_fmap, !length_app, Hlen.
  split; [done|]. split; [done|]. split.
  - rewrite fmap_app.
    rewrite <- (length_fmap s_features df) at 1. by rewrite take_app_length.
  - intros i f Hi Hlook.
    rewrite fmap_app, lookup_app_r in Hlook by (by rewrite length_fmap).
    rewrite list_lookup_fmap in Hlook.
    destruct (rows !! (i - length (s_features <$> df))%nat) as [row|] eqn:Hrow;
      [|done].
    simpl in Hlook. injection Hlook as <-.
    eapply (proj1 (Forall_lookup _ _) Hall); done.
Qed.

Lemma augment_data_rows_and_bounds_witness :
  ∃ X y,
    augment_data still_draws [scenario_sample] 3 = Ok (X, y)
    ∧ length X = (length [scenario_sample] + 3)%nat
    ∧ length y = (length [scenario_sample] + 3)%nat
    ∧ take (length [scenario_sample]) X = s_features <$> [scenario_sample]
    ∧ ∀ i f, (length [scenario_sample] ≤ i)%nat →
             X !! i = Some f → within_bounds f.
Proof.
  apply (augment_data_rows_and_bounds still_draws [scenario_sample] 3).
  left. discriminate.
Defined.

(** C5 as stated fails: on the empty table a request for one synthetic row
    raises, because there is no row to draw. *)
Lemma augment_empty_table_raises :
  augment_data still_draws [] 1 = Err (Raise ValueError "low >= high")
  ∧ ¬ augment_always_returns.
Proof.
  split; [reflexivity|].
  intros H. destruct (H still_draws [] 1%nat) as (X & y & Heq & _).
  discriminate Heq.
Qed.

(** ** Training: [train_multiple_models] and [train_model] *)

Section training.

Ltac run_families fit :=
  unfold train_multiple_models; simpl;
  destruct (fit "Random Forest"), (fit "Logistic Regression"),
    (fit "Gradient Boosting"), (fit "SVM"); simpl.

Lemma train_multiple_models_keys (fit : string → res FamilyResult) :
  NoDup (train_multiple_models fit).*1.
Proof.
  apply NoDup_ListNoDup. run_families fit;
    repeat constructor; simpl; intuition discriminate.
Qed.

(** The result dictionary holds exactly the families whose search returned. *)
Lemma train_multiple_models_lookup (fit : string → res FamilyResult) name :
  name ∈ models →
  dict_get name (train_multiple_models fit) =
    match fit name with
    | Ok r => Some r
    | Err _ => None
    end.
Proof.
  unfold models. rewrite !elem_of_cons, elem_of_nil.
  intros [->|[->|[->|[->|[]]]]];
    unfold train_multiple_models; simpl;
    destruct (fit "Random Forest"), (fit "Logistic Regression"),
      (fit "Gradient Boosting"), (fit "SVM"); reflexivity.
Qed.

Lemma train_multiple_models_all_fail (fit : string → res FamilyResult) :
  (∀ name, name ∈ models → ∃ e, fit name = Err e) →
  train_multiple_models fit = [].
Proof.
  intros H. unfold train_multiple_models. simpl.
  destruct (H "Random Forest") as [? ->]; [set_solver|].
  destruct (H "Logistic Regression") as [? ->]; [set_solver|].
  destruct (H "Gradient Boosting") as [? ->]; [set_solver|].
  destruct (H "SVM") as [? ->]; [set_solver|].
  reflexivity.
Qed.

Lemma dict_get_elem {V} (d : list (string * V)) k v :
  dict_get k d = Some v → (k, v) ∈ d.
Proof.
  unfold dict_get. induction d as [|[k' v'] d IH]; simpl; [done|].
  case_bool_decide as Hk; simpl in *.
  - intros [= ->]. subst. left.
  - intros H. right. by apply IH.
Qed.

Lemma train_multiple_models_families (fit : string → res FamilyResult) :
  (train_multiple_models fit).*1 = filter (λ name, trained (fit name)) models.
Proof.
  unfold train_multiple_models, models. simpl.
  rewrite !filter_cons, filter_nil.
  destruct (fit "Random Forest"), (fit "Logistic Regression"),
    (fit "Gradient Boosting"), (fit "SVM"); reflexivity.
Qed.

Lemma train_multiple_models_key_in_models (fit : string → res FamilyResult) name r :
  (name, r) ∈ train_multiple_models fit → name ∈ models ∧ fit name = Ok r.
Proof.
  intros Hin.
  assert (Hk : name ∈ (train_multiple_models fit).*1).
  { apply list_elem_of_fmap. by exists (name, r). }
  rewrite train_multiple_models_families in Hk.
  apply list_elem_of_filter in Hk as [_ Hm]. split; [done|].
  pose proof (train_multiple_models_lookup fit name Hm) as Hget.
  rewrite (dict_get_NoDup _ name r (train_multiple_models_keys fit) Hin) in Hget.
  by destruct (fit name) as [r'|]; simplify_eq.
Qed.

Lemma train_multiple_models_trained (fit : string → res FamilyResult) name r :
  name ∈ models → fit name = Ok r → (name, r) ∈ train_multiple_models fit.
Proof.
  intros Hname Hfit. apply dict_get_elem.
  by rewrite train_multiple_models_lookup, Hfit.
Qed.

(** What [evaluate_models] does with the families that trained:
    a selection is the model of a family whose search returned, and a
    failure is what the report of such a family raised. *)
Lemma evaluate_models_ok_inv report (results : list (string * FamilyResult))
    y_test le name m :
  evaluate_models report results y_test le = Ok (name, m) →
  ∃ r, (name, r) ∈ results ∧ m = model r.
Proof.
  unfold evaluate_models, py_index.
  destruct (print_reports report y_test le (sorted_by_accuracy_desc results));
    simpl; [|done].
  destruct (sorted_by_accuracy_desc results !! 0%nat) as [[n r0]|]; simpl; [|done].
  destruct (dict_get n results) as [r|] eqn:Hget; [|done].
  intros [= -> <-]. exists r. split; [by apply dict_get_elem|done].
Qed.

Lemma evaluate_trained_err report (fit : string → res FamilyResult)
    y_test le name r e :
  name ∈ models → fit name = Ok r →
  evaluate_models report (train_multiple_models fit) y_test le = Err e →
  ∃ name' r', name' ∈ models ∧ fit name' = Ok r'
              ∧ report y_test (predictions r') (classes_ le) = Err e.
Proof.
  intros Hname Hfit Hev.
  apply evaluate_models_err in Hev as ([name' r'] & Hin & Hrep).
  - apply train_multiple_models_key_in_models in Hin as [Hm Hf].
    by exists name', r'.
  - intros Hnil. pose proof (train_multiple_models_trained fit name r Hname Hfit) as Hin.
    rewrite Hnil in Hin. inversion Hin.
  - apply train_multiple_models_keys.
Qed.

(** [train_model] after a successful load and split, with a family that
    trained: selection, insight report and saving, one after the other. *)
Lemma train_model_with_results env fs model_type aug ds X y split :
  load_and_split env aug = Ok (ds, X, y, split) →
  train_multiple_models (grid_search env split) ≠ [] →
  train_model env fs model_type aug =
    match evaluate_models (classification_report env)
            (train_multiple_models (grid_search env split))
            (y_test split) (ds_le ds) with
    | Err e => (Err e, fs)
    | Ok (best_name, best) =>
        match generate_risk_insights env X y (ds_le ds)
                (ds_feature_columns ds) with
        | Err e => (Err e, fs)
        | Ok _ =>
            match save_model (joblib_dump env) fs best (ds_le ds) best_name
                    (ds_feature_columns ds) with
            | (Err e, fs') => (Err e, fs')
            | (Ok _, fs') => (Ok (Some (best, ds_le ds)), fs')
            end
        end
    end.
Proof.
  intros Hprep Hne. unfold train_model. rewrite Hprep.
  by destruct (train_multiple_models (grid_search env split)).
Qed.

End training.

(** C6, as the code has it: once the data is loaded and split, the result
    dictionary holds each family whose search returned and none whose
    search raised. When every family raised, [train_model] does not raise:
    it returns [(None, None)] and leaves the model directory as it was.
    When some family returned, training goes on with the families that
    returned: the result dictionary is not empty; selection either picks
    one of them or raises what the classification report of one of them
    raised; and the call as a whole raises what selection raised, else
    what the insight report raised, else what saving raised, and otherwise
    returns the selected model with the label encoder. *)
Theorem training_failure_semantics (env : TrainEnv) (fs : filesystem)
    (model_type : string) (aug : bool) ds X y split :
  load_and_split env aug = Ok (ds, X, y, split) →
  (∀ name, name ∈ models →
     dict_get name (train_multiple_models (grid_search env split)) =
       match grid_search env split name with
       | Ok r => Some r
       | Err _ => None
       end)
  ∧ ((∀ name, name ∈ models → ∃ e, grid_search env split name = Err e) →
       train_model env fs model_type aug = (Ok None, fs))
  ∧ (∀ name r, name ∈ models → grid_search env split name = Ok r →
       train_multiple_models (grid_search env split) ≠ []
       ∧ match evaluate_models (classification_report env)
                 (train_multiple_models (grid_search env split))
                 (y_test split) (ds_le ds) with
         | Ok (best_name, best) =>
             ∃ rb, best_name ∈ models
                   ∧ grid_search env split best_name = Ok rb
                   ∧ best = model rb
         | Err e =>
             ∃ name' r', name' ∈ models
                         ∧ grid_search env split name' = Ok r'
                         ∧ classification_report env (y_test split)
                             (predictions r') (classes_ (ds_le ds)) = Err e
         end
       ∧ train_model env fs model_type aug =
           match evaluate_models (classification_report env)
                   (train_multiple_models (grid_search env split))
                   (y_test split) (ds_le ds) with
           | Err e => (Err e, fs)
           | Ok (best_name, best) =>
               match generate_risk_insights env X y (ds_le ds)
                       (ds_feature_columns ds) with
               | Err e => (Err e, fs)
               | Ok _ =>
                   match save_model (joblib_dump env) fs best (ds_le ds)
                           best_name (ds_feature_columns ds) with
                   | (Err e, fs') => (Err e, fs')
                   | (Ok _, fs') => (Ok (Some (best, ds_le ds)), fs')
                   end
               end
           end).
Proof.
  intros Hprep. split; [|split].
  - intros name Hname. by apply train_multiple_models_lookup.
  - intros Hall. unfold train_model. rewrite Hprep.
    by rewrite train_multiple_models_all_fail.
  - intros name r Hname Hfit.
    assert (Hne : train_multiple_models (grid_search env split) ≠ []).
    { intros Hnil.
      pose proof (train_multiple_models_trained _ name r Hname Hfit) as Hin.
      rewrite Hnil in Hin. inversion Hin. }
    split; [done|]. split.
    + destruct (evaluate_models _ _ _ _) as [[best_name best]|e] eqn:Hev.
      * apply evaluate_models_ok_inv in Hev as (rb & Hin & ->).
        apply train_multiple_models_key_in_models in Hin as [Hm Hf].
        by exists rb.
      * by apply (evaluate_trained_err _ _ _ _ name r).
    + by apply train_model_with_results.
Qed.

Lemma training_failure_semantics_witness :
  (∀ name, name ∈ models →
     dict_get name
       (train_multiple_models (grid_search two_families_train
          {| X_train := drop 10 (s_features <$> example_rows);
             X_test := take 10 (s_features <$> example_rows);
             y_train := drop 10 (s_target <$> example_rows);
             y_test := take 10 (s_target <$> example_rows) |})) =
       match tie_fit name with
       | Ok r => Some r
       | Err _ => None
       end)
  ∧ ((∀ name, name ∈ models → ∃ e, tie_fit name = Err e) →
       train_model two_families_train untrained "best" false
         = (Ok None, untrained))
  ∧ (∀ name r, name ∈ models → tie_fit name = Ok r →
       train_multiple_models tie_fit ≠ []
       ∧ match evaluate_models checked_classification_report
                 (train_multiple_models tie_fit) example_y_test
                 example_encoder with
         | Ok (best_name, best) =>
             ∃ rb, best_name ∈ models ∧ tie_fit best_name = Ok rb
                   ∧ best = model rb
         | Err e =>
             ∃ name' r', name' ∈ models ∧ tie_fit name' = Ok r'
                         ∧ checked_classification_report example_y_test
                             (predictions r') (classes_ example_encoder) = Err e
         end
       ∧ train_model two_families_train untrained "best" false =
           (Ok (Some (replay_pipeline [1; 0; 0; 0; 1; 1; 1; 2; 2; 2]%nat,
                      example_encoder)),
            {| model_files :=
                 {[ "random_forest_model.pkl" :=
                      replay_pipeline [1; 0; 0; 0; 1; 1; 1; 2; 2; 2]%nat ]};
               label_encoder_pkl := Some example_encoder;
               feature_columns_pkl :=
                 Some (ds_feature_columns example_dataset) |})).
Proof.
  exact (training_failure_semantics two_families_train untrained "best" false
           example_dataset (s_features <$> example_rows)
           (s_target <$> example_rows)
           {| X_train := drop 10 (s_features <$> example_rows);
              X_test := take 10 (s_features <$> example_rows);
              y_train := drop 10 (s_target <$> example_rows);
              y_test := take 10 (s_target <$> example_rows) |}
           eq_refl).
Defined.

(** C6 as stated fails: with every family's search raising, the training
    call returns [(None, None)] instead of raising. *)
Lemma all_families_failing_returns_none :
  train_model no_family_trains untrained "best" false = (Ok None, untrained)
  ∧ ¬ all_failures_raise.
Proof.
  split; [reflexivity|].
  intros H.
  destruct (H no_family_trains untrained "best" false) as [e He].
  - intros split name. by eexists.
  - discriminate He.
Qed.

(** ** Dictionaries built from pairs *)

Section dictionaries.

Lemma dict_of_snoc l k v : dict_of (l ++ [(k, v)]) = <[k := v]> (dict_of l).
Proof. unfold dict_of. by rewrite foldl_snoc. Qed.

Lemma dict_of_lookup_Some l k v : dict_of l !! k = Some v → (k, v) ∈ l.
Proof.
  induction l as [|[k' v'] l IH] using rev_ind.
  - unfold dict_of. simpl. by rewrite lookup_empty.
  - rewrite dict_of_snoc, lookup_insert_Some.
    intros [[-> ->]|[_ H]]; set_solver.
Qed.

Lemma dict_of_lookup_NoDup l k v :
  NoDup l.*1 → (k, v) ∈ l → dict_of l !! k = Some v.
Proof.
  induction l as [|[k' v'] l IH] using rev_ind; [by intros _ ?%elem_of_nil|].
  rewrite fmap_app, NoDup_app. simpl. intros (Hnd & Hdisj & _).
  rewrite dict_of_snoc, elem_of_app, list_elem_of_singleton.
  intros [Hin|[= -> ->]].
  - rewrite lookup_insert_ne; [by apply IH|].
    intros ->. apply (Hdisj k); [|set_solver].
    apply list_elem_of_fmap. by exists (k, v).
  - apply lookup_insert_eq.
Qed.

Lemma fst_py_zip {A B} (ks : list A) (vs : list B) :
  (py_zip ks vs).*1 = take (length vs) ks.
Proof.
  unfold py_zip. revert vs.
  induction ks as [|k ks IH]; intros [|v vs]; simpl; [done..|].
  by rewrite IH.
Qed.

(** [dict(zip(keys, values))] with distinct keys maps the i-th key to the
    i-th value, and has no key outside [keys]. *)
Lemma dict_of_zip_lookup (ks : list string) (vs : list value) i k v :
  NoDup ks → ks !! i = Some k → vs !! i = Some v →
  dict_of (py_zip ks vs) !! k = Some v.
Proof.
  intros Hnd Hk Hv. apply dict_of_lookup_NoDup.
  - rewrite fst_py_zip. eapply sublist_NoDup; [done|]. apply sublist_take.
  - apply list_elem_of_lookup. exists i. unfold py_zip.
    rewrite lookup_zip_with, Hk. simpl. by rewrite Hv.
Qed.

Lemma dict_of_zip_key (ks : list string) (vs : list value) k :
  is_Some (dict_of (py_zip ks vs) !! k) → k ∈ ks.
Proof.
  intros [v Hv]. apply dict_of_lookup_Some in Hv.
  unfold py_zip in Hv. by apply elem_of_zip_l in Hv.
Qed.

End dictionaries.

(** ** Registry: [save_model] followed by [load_model] *)

Section registry_round_trip.

Lemma lower_ascii_idemp c : lower_ascii (lower_ascii c) = lower_ascii c.
Proof. by destruct c as [[] [] [] [] [] [] [] []]. Qed.

Lemma lower_replace_char c :
  lower_ascii (if Ascii.eqb c " " then "_"%char else c)
  = if Ascii.eqb (lower_ascii c) " " then "_"%char else lower_ascii c.
Proof. by destruct c as [[] [] [] [] [] [] [] []]. Qed.

Lemma replace_char_idemp c :
  (if Ascii.eqb (if Ascii.eqb c " " then "_"%char else c) " "
   then "_"%char else (if Ascii.eqb c " " then "_"%char else c))
  = if Ascii.eqb c " " then "_"%char else c.
Proof. by destruct c as [[] [] [] [] [] [] [] []]. Qed.

Lemma lower_idemp s : lower (lower s) = lower s.
Proof. induction s as [|c s IH]; simpl; [done|]. by rewrite lower_ascii_idemp, IH. Qed.

Lemma lower_replace s :
  lower (replace_space_underscore s) = replace_space_underscore (lower s).
Proof. induction s as [|c s IH]; simpl; [done|]. by rewrite lower_replace_char, IH. Qed.

Lemma replace_idemp s :
  replace_space_underscore (replace_space_underscore s)
  = replace_space_underscore s.
Proof. induction s as [|c s IH]; simpl; [done|]. by rewrite replace_char_idemp, IH. Qed.

(** A model name and its file stem name the same file. *)
Lemma model_file_normalized name :
  model_file (replace_space_underscore (lower name)) = model_file name.
Proof.
  unfold model_file. by rewrite lower_replace, lower_idemp, replace_idemp.
Qed.

Lemma load_model_of_file fs model_type m le cols :
  model_files fs !! model_file model_type = Some m →
  label_encoder_pkl fs = Some le →
  feature_columns_pkl fs = Some cols →
  load_model fs model_type = Ok (m, le, cols).
Proof.
  intros Hm Hle Hc. apply load_model_ok.
  rewrite model_path_named by (by rewrite Hm). done.
Qed.

(** The three paths [save_model] writes are distinct, so the outcomes of
    its three [joblib.dump] calls can be told apart by path. *)
Lemma model_file_not_shared name :
  model_file name ≠ "label_encoder.pkl"
  ∧ model_file name ≠ "feature_columns.pkl".
Proof.
  unfold model_file.
  generalize (replace_space_underscore (lower name)). intros s.
  split; intros H;
    repeat (destruct s as [|? s]; simpl in H; simplify_eq).
Qed.

(** [save_model] returns exactly when its three dumps return, and then
    all three files are written. *)
Lemma save_model_ok dump fs m le name cols fs' :
  save_model dump fs m le name cols = (Ok (), fs')
  ↔ dump (model_file name) = Ok ()
    ∧ dump "label_encoder.pkl" = Ok ()
    ∧ dump "feature_columns.pkl" = Ok ()
    ∧ fs' = all_written fs m le name cols.
Proof.
  unfold save_model, all_written.
  destruct (dump (model_file name)) as [[]|e1]; simpl.
  - destruct (dump "label_encoder.pkl") as [[]|e2]; simpl.
    + destruct (dump "feature_columns.pkl") as [[]|e3]; simpl.
      * split; [by intros [= <-]|by intros (_ & _ & _ & ->)].
      * split; [done|by intros (_ & _ & ? & _)].
    + split; [done|by intros (_ & ? & _)].
  - split; [done|by intros (? & _)].
Qed.

(** When [save_model] raises, it raises what one of its dumps raised; the
    files of the dumps before that one are written, the others are as
    they were. *)
Lemma save_model_err dump fs m le name cols e fs' :
  save_model dump fs m le name cols = (Err e, fs')
  ↔ (dump (model_file name) = Err e ∧ fs' = fs)
    ∨ (dump (model_file name) = Ok ()
       ∧ dump "label_encoder.pkl" = Err e
       ∧ fs' = write_model_file fs (model_file name) m)
    ∨ (dump (model_file name) = Ok ()
       ∧ dump "label_encoder.pkl" = Ok ()
       ∧ dump "feature_columns.pkl" = Err e
       ∧ fs' = write_label_encoder
                 (write_model_file fs (model_file name) m) le).
Proof.
  unfold save_model.
  destruct (dump (model_file name)) as [[]|e1]; simpl.
  - destruct (dump "label_encoder.pkl") as [[]|e2]; simpl.
    + destruct (dump "feature_columns.pkl") as [[]|e3]; simpl.
      * split; [done|]. intros [[? _]|[(_ & ? & _)|(_ & _ & ? & _)]]; done.
      * split.
        -- intros [= <- <-]. by right; right.
        -- intros [[? _]|[(_ & ? & _)|(_ & _ & [= ->] & ->)]]; done.
    + split.
      * intros [= <- <-]. by right; left.
      * intros [[? _]|[(_ & [= ->] & ->)|(_ & ? & _)]]; done.
  - split.
    + intros [= <- <-]. by left.
    + intros [([= ->] & ->)|[(? & _)|(? & _)]]; done.
Qed.

Lemma load_all_written fs m le name cols :
  load_model (all_written fs m le name cols) name = Ok (m, le, cols).
Proof.
  apply load_model_of_file; simpl; [apply lookup_insert_eq|done..].
Qed.

End registry_round_trip.

(** X1: [save_model] returns exactly when its three [joblib.dump] calls
    return. What it then has stored under a family name, [load_model]
    gives back under that name and under its normalised file stem. When
    it raises, it raises what one of the three dumps raised. *)
Theorem save_then_load (dump : string → res unit) (fs : filesystem)
    (m : Pipeline) (le : LabelEncoder) (model_name : string)
    (cols : list string) :
  ((save_model dump fs m le model_name cols).1 = Ok ()
   ↔ dump (model_file model_name) = Ok ()
     ∧ dump "label_encoder.pkl" = Ok ()
     ∧ dump "feature_columns.pkl" = Ok ())
  ∧ match save_model dump fs m le model_name cols with
    | (Ok _, fs') =>
        load_model fs' model_name = Ok (m, le, cols)
        ∧ load_model fs' (replace_space_underscore (lower model_name))
          = Ok (m, le, cols)
    | (Err e, _) =>
        dump (model_file model_name) = Err e
        ∨ dump "label_encoder.pkl" = Err e
        ∨ dump "feature_columns.pkl" = Err e
    end.
Proof.
  destruct (save_model dump fs m le model_name cols) as [[[]|e] fs'] eqn:Hs.
  - apply save_model_ok in Hs as (H1 & H2 & H3 & ->).
    split; [done|]. split; [apply load_all_written|].
    apply load_model_of_file; simpl; [|done..].
    rewrite model_file_normalized. apply lookup_insert_eq.
  - apply save_model_err in Hs.
    split.
    + simpl. split; [done|]. intros (H1 & H2 & H3).
      destruct Hs as [[? _]|[(_ & ? & _)|(_ & _ & ? & _)]]; congruence.
    + destruct Hs as [[? _]|[(_ & ? & _)|(_ & _ & ? & _)]]; auto.
Qed.

(** X2: the encoder and column files are shared. After a save of family
    [a] that returned and then a save of family [b], in another file, that
    returned, loading [a] gives [a]'s model with the encoder and the
    columns saved with [b]. *)
Theorem second_save_replaces_shared_files (dump dump' : string → res unit)
    (fs fs1 fs2 : filesystem) (ma mb : Pipeline) (lea leb : LabelEncoder)
    (a b : string) (colsa colsb : list string) :
  model_file a ≠ model_file b →
  save_model dump fs ma lea a colsa = (Ok (), fs1) →
  save_model dump' fs1 mb leb b colsb = (Ok (), fs2) →
  load_model fs2 a = Ok (ma, leb, colsb).
Proof.
  intros Hne (_ & _ & _ & ->)%save_model_ok (_ & _ & _ & ->)%save_model_ok.
  apply load_model_of_file; simpl; [|done..].
  rewrite lookup_insert_ne by done. apply lookup_insert_eq.
Qed.

Lemma second_save_replaces_shared_files_witness :
  load_model
    (save_model (λ _, Ok ())
       (save_model (λ _, Ok ()) untrained (constant_pipeline 0)
          {| classes_ := ["High"; "Low"; "Moderate"] |} "Random Forest"
          ["pm25"]).2
       (constant_pipeline 1) {| classes_ := ["Low"; "High"] |} "SVM"
       ["pm10"]).2
    "Random Forest"
  = Ok (constant_pipeline 0, {| classes_ := ["Low"; "High"] |}, ["pm10"]).
Proof.
  apply (second_save_replaces_shared_files (λ _, Ok ()) (λ _, Ok ()) untrained
           (save_model (λ _, Ok ()) untrained (constant_pipeline 0)
              {| classes_ := ["High"; "Low"; "Moderate"] |} "Random Forest"
              ["pm25"]).2
           _ (constant_pipeline 0) (constant_pipeline 1)
           {| classes_ := ["High"; "Low"; "Moderate"] |}
           {| classes_ := ["Low"; "High"] |} "Random Forest" "SVM"
           ["pm25"] ["pm10"]).
  - vm_compute. discriminate.
  - reflexivity.
  - reflexivity.
Defined.

(** ** Training: which families are kept, and what is selected from them *)

(** X3: the result dictionary lists exactly the families whose search
    returned, in the order the families are declared. *)
Theorem results_are_trained_families_in_order (fit : string → res FamilyResult) :
  (train_multiple_models fit).*1 = filter (λ name, trained (fit name)) models.
Proof. apply train_multiple_models_families. Qed.

(** X4: training followed by selection. When [evaluate_models] returns,
    the selected model is the model of a family whose search returned, and
    no family whose search returned has a higher test accuracy. When it
    raises, either every search raised and the exception is the
    [IndexError] of indexing the empty result, or it is what the
    classification report of a family whose search returned raised. *)
Theorem selection_after_training
    (report : list nat → list nat → list string → res string)
    (fit : string → res FamilyResult) (y_test : list nat) (le : LabelEncoder) :
  match evaluate_models report (train_multiple_models fit) y_test le with
  | Ok (name, m) =>
      ∃ r, name ∈ models ∧ fit name = Ok r ∧ m = model r
           ∧ ∀ name' r', name' ∈ models → fit name' = Ok r' →
                         (accuracy r' <= accuracy r)%Q
  | Err e =>
      (exn_cls e = IndexError
       ∧ ∀ name, name ∈ models → ∃ e', fit name = Err e')
      ∨ (∃ name r, name ∈ models ∧ fit name = Ok r
                   ∧ report y_test (predictions r) (classes_ le) = Err e)
  end.
Proof.
  destruct (train_multiple_models fit) as [|kv l] eqn:Hres.
  - simpl. left. split; [done|]. intros name Hname.
    pose proof (train_multiple_models_lookup fit name Hname) as Hget.
    rewrite Hres in Hget. destruct (fit name); [done|by eexists].
  - rewrite <- Hres.
    destruct (evaluate_models_select report (train_multiple_models fit) y_test le)
      as (before & name & r & after & Heq & Hlt & Hle & ->).
    { by rewrite Hres. }
    { apply train_multiple_models_keys. }
    destruct (print_reports report y_test le
                (sorted_by_accuracy_desc (train_multiple_models fit)))
      as [[]|e] eqn:Hp.
    + assert (Hin : (name, r) ∈ train_multiple_models fit).
      { rewrite Heq. apply elem_of_app. right. left. }
      destruct (train_multiple_models_key_in_models fit name r Hin) as [Hm Hfit].
      exists r. repeat split; [done..|].
      intros name' r' Hm' Hfit'.
      pose proof (train_multiple_models_trained fit name' r' Hm' Hfit') as Hget.
      rewrite Heq in Hget.
      apply elem_of_app in Hget as [Hb|[[= -> ->]|Ha]%elem_of_cons].
      * apply Qlt_le_weak. apply (Hlt _ Hb).
      * apply Qle_refl.
      * apply (Hle _ Ha).
    + right. apply print_reports_err in Hp as ([name' r'] & Hin & Hrep).
      rewrite sorted_by_accuracy_desc_perm in Hin.
      apply train_multiple_models_key_in_models in Hin as [Hm Hf].
      by exists name', r'.
Qed.

(** ** Training: what [train_model] leaves in the model directory *)

Section training_artifacts.

Lemma model_file_of_family name :
  name ∈ models →
  model_file name ≠ "best_model.pkl"
  ∧ (model_file name = default_model_file ↔ name = "Random Forest").
Proof.
  unfold models. rewrite !elem_of_cons, elem_of_nil.
  intros [->|[->|[->|[->|[]]]]]; (split; [by vm_compute|split; by vm_compute]).
Qed.

(** The outcome of [train_model] once its steps are known to return. *)
Lemma train_model_success env fs model_type aug ds X y split best_name best u :
  load_and_split env aug = Ok (ds, X, y, split) →
  evaluate_models (classification_report env)
    (train_multiple_models (grid_search env split)) (y_test split) (ds_le ds)
    = Ok (best_name, best) →
  generate_risk_insights env X y (ds_le ds) (ds_feature_columns ds) = Ok u →
  joblib_dump env (model_file best_name) = Ok () →
  joblib_dump env "label_encoder.pkl" = Ok () →
  joblib_dump env "feature_columns.pkl" = Ok () →
  train_model env fs model_type aug
  = (Ok (Some (best, ds_le ds)),
     all_written fs best (ds_le ds) best_name (ds_feature_columns ds)).
Proof.
  intros Hprep Hev Hins Hd1 Hd2 Hd3. unfold train_model. rewrite Hprep.
  destruct (train_multiple_models (grid_search env split)) eqn:Hres.
  - discriminate Hev.
  - rewrite Hev, Hins.
    by rewrite (proj2 (save_model_ok (joblib_dump env) fs best (ds_le ds)
                         best_name (ds_feature_columns ds) _)
                  (conj Hd1 (conj Hd2 (conj Hd3 eq_refl)))).
Qed.




End training_artifacts.


(** X6: the alias 'best' after a training into an empty model directory
    whose steps all return. The selected model is saved under its family's
    file only, so loading 'best' (the default of [predict_asthma_risk])
    returns the model just trained when the selected family is Random
    Forest, and otherwise fails with [FileNotFoundError], as does a
    prediction with the default model type. *)
Theorem best_alias_after_first_training (env : TrainEnv) (libs : Libs)
    (import_xai_explainer : res unit) (x : Features) (model_type : string)
    (aug include_xai : bool) ds X y split best_name best u :
  load_and_split env aug = Ok (ds, X, y, split) →
  evaluate_models (classification_report env)
    (train_multiple_models (grid_search env split)) (y_test split) (ds_le ds)
    = Ok (best_name, best) →
  generate_risk_insights env X y (ds_le ds) (ds_feature_columns ds) = Ok u →
  joblib_dump env (model_file best_name) = Ok () →
  joblib_dump env "label_encoder.pkl" = Ok () →
  joblib_dump env "feature_columns.pkl" = Ok () →
  (best_name = "Random Forest" →
     load_model (train_model env untrained model_type aug).2 "best"
     = Ok (best, ds_le ds, ds_feature_columns ds))
  ∧ (best_name ≠ "Random Forest" →
       (∃ e, load_model (train_model env untrained model_type aug).2 "best"
               = Err e ∧ exn_cls e = FileNotFoundError)
       ∧ ∃ e, predict_asthma_risk (train_model env untrained model_type aug).2
                libs import_xai_explainer x "best" include_xai = Err e).
Proof.
  intros Hprep Hev Hins Hd1 Hd2 Hd3.
  rewrite (train_model_success _ _ _ _ _ _ _ _ _ _ _ Hprep Hev Hins Hd1 Hd2 Hd3).
  simpl.
  destruct (evaluate_models_ok_inv _ _ _ _ _ _ Hev) as (r & Hin & ->).
  apply train_multiple_models_key_in_models in Hin as [Hname _].
  destruct (model_file_of_family best_name Hname) as [Hnb Hrf].
  set (fs' := all_written untrained (model r) (ds_le ds) best_name
                (ds_feature_columns ds)).
  assert (Hbest : model_files fs' !! model_file "best" = None).
  { simpl. rewrite lookup_insert_ne by done. apply lookup_empty. }
  split.
  - intros Hb. apply load_model_ok.
    rewrite (model_path_fallback fs' "best" Hbest). simpl.
    apply Hrf in Hb. rewrite Hb. by rewrite lookup_insert_eq.
  - intros Hb.
    assert (Hfail : ∃ e, load_model fs' "best" = Err e).
    { apply load_model_fails_iff. left.
      rewrite (model_path_fallback fs' "best" Hbest). simpl.
      rewrite lookup_insert_ne; [apply lookup_empty|].
      intros Heq. by apply Hb, Hrf. }
    destruct Hfail as [e He]. split.
    + exists e. split; [done|].
      by destruct (load_model_err _ _ _ He) as [msg ->].
    + unfold predict_asthma_risk. rewrite He. simpl. by eexists.
Qed.

Lemma best_alias_after_first_training_witness :
  ("Random Forest" = "Random Forest" →
     load_model (train_model two_families_train untrained "best" false).2 "best"
     = Ok (replay_pipeline [1; 0; 0; 0; 1; 1; 1; 2; 2; 2]%nat,
           example_encoder, ds_feature_columns example_dataset))
  ∧ ("Random Forest" ≠ "Random Forest" →
       (∃ e, load_model (train_model two_families_train untrained "best" false).2
               "best" = Err e ∧ exn_cls e = FileNotFoundError)
       ∧ ∃ e, predict_asthma_risk
                (train_model two_families_train untrained "best" false).2
                failing_libs (Ok ()) scenario_features "best" false = Err e).
Proof.
  exact (best_alias_after_first_training two_families_train failing_libs
           (Ok ()) scenario_features "best" false false
           example_dataset (s_features <$> example_rows)
           (s_target <$> example_rows)
           {| X_train := drop 10 (s_features <$> example_rows);
              X_test := take 10 (s_features <$> example_rows);
              y_train := drop 10 (s_target <$> example_rows);
              y_test := take 10 (s_target <$> example_rows) |}
           "Random Forest"
           (replay_pipeline [1; 0; 0; 0; 1; 1; 1; 2; 2; 2]%nat) ()
           eq_refl eq_refl eq_refl eq_refl eq_refl eq_refl).
Defined.

(** ** Augmentation: where a synthetic row comes from *)

Section augmentation_sources.

Lemma add_noise_inv (v z v' : Q) :
  add_noise v z = Ok v' → v' = (v + (0 + noise_factor * Qabs v * z))%Q.
Proof.
  unfold add_noise, np_random_normal.
  destruct (Qlt_bool (noise_factor * Qabs v) 0); simpl; [done|].
  by intros [= <-].
Qed.

Lemma add_noise_zero (v z v' : Q) : add_noise v z = Ok v' → (v == 0 → v' == 0)%Q.
Proof.
  intros ->%add_noise_inv Hv. rewrite Hv.
  change (Qabs 0) with 0%Q. ring.
Qed.

Lemma py_max2_zero (v : Q) : (v == 0 → py_max2 0 v == 0)%Q.
Proof. intros Hv. unfold py_max2. by destruct (Qlt_bool 0 v). Qed.

Lemma py_min2_zero (a v : Q) : (0 < a → v == 0 → py_min2 a v == 0)%Q.
Proof.
  intros Ha Hv. unfold py_min2. destruct (Qlt_bool v a) eqn:Hlt; [done|].
  apply Qlt_bool_false in Hlt. rewrite Hv in Hlt.
  exfalso. by apply (Qlt_not_le _ _ Ha).
Qed.

(** A synthetic row copies the label of a row of the table, and keeps at
    zero every column that row has at zero. *)
Lemma synthetic_row_source (df : list Sample) (d : Draw) (row : Sample) :
  synthetic_row df d = Ok row →
  ∃ src, src ∈ df
    ∧ s_target row = s_target src
    ∧ ∀ col, col ∈ feature_column_values →
        (col (s_features src) == 0 → col (s_features row) == 0)%Q.
Proof.
  unfold synthetic_row, np_random_randint, py_index.
  case_bool_decide; simpl; [|done].
  destruct (df !! _) as [src|] eqn:Hsrc; simpl; [|done].
  unfold add_noise_all.
  repeat match goal with
  | |- context [add_noise ?v ?w] =>
      let v' := fresh "v" in let H := fresh "Hv" in
      destruct (add_noise v w) as [v'|] eqn:H; simpl; [|done]
  end.
  intros [= <-]. exists src. split; [by eapply list_elem_of_lookup_2|].
  split; [done|].
  intros col. unfold feature_column_values.
  rewrite !elem_of_cons, elem_of_nil.
  intros [->|[->|[->|[->|[->|[->|[->|[->|[->|[->|[]]]]]]]]]]]; simpl; intros Hz;
    repeat first [apply py_max2_zero | apply py_min2_zero; [done|]];
    eapply add_noise_zero; eauto.
Qed.

Lemma augment_loop_sources (df : list Sample) (rng : nat → Draw) (n i : nat) rows :
  augment_loop df rng i n = Ok rows →
  Forall (λ row, ∃ src, src ∈ df
            ∧ s_target row = s_target src
            ∧ ∀ col, col ∈ feature_column_values →
                (col (s_features src) == 0 → col (s_features row) == 0)%Q) rows.
Proof.
  revert i rows. induction n as [|n IH]; intros i rows; simpl.
  - by intros [= <-].
  - destruct (synthetic_row df (rng i)) as [row|] eqn:Hrow; simpl; [|done].
    destruct (augment_loop df rng (S i) n) as [rest|] eqn:Hrest; simpl; [|done].
    intros [= <-]. constructor; [by eapply synthetic_row_source|by eapply IH].
Qed.

End augmentation_sources.

(** X7: augmentation never invents a label. When [augment_data] returns,
    the labels start with the labels of the table, in order, and every
    label returned is the label of some row of the table. *)
Theorem augment_data_labels (rng : nat → Draw) (df : list Sample) (n : nat)
    (X : list Features) (y : list nat) :
  augment_data rng df n = Ok (X, y) →
  take (length df) y = s_target <$> df
  ∧ ∀ label, label ∈ y → label ∈ s_target <$> df.
Proof.
  unfold augment_data.
  destruct (augment_loop df rng 0 n) as [rows|] eqn:Hrows; simpl; [|done].
  intros [= <- <-]. pose proof (augment_loop_sources _ _ _ _ _ Hrows) as Hall.
  split.
  - rewrite fmap_app.
    rewrite <- (length_fmap s_target df) at 1. by rewrite take_app_length.
  - intros label. rewrite fmap_app, elem_of_app.
    intros [?|Hin]; [done|].
    apply list_elem_of_fmap in Hin as (row & -> & Hrow).
    destruct (proj1 (Forall_forall _ _) Hall row Hrow) as (src & Hsrc & -> & _).
    apply list_elem_of_fmap. by exists src.
Qed.

Lemma augment_data_labels_witness :
  take (length [scenario_sample]) [1; 1; 1]%nat = s_target <$> [scenario_sample]
  ∧ ∀ label, label ∈ [1; 1; 1]%nat → label ∈ s_target <$> [scenario_sample].
Proof.
  apply (augment_data_labels still_draws [scenario_sample] 2
           (s_features <$> [scenario_sample; {| s_features := realistic_bounds
               match add_noise_all scenario_features (gauss (still_draws 0)) with
               | Ok f => f | Err _ => scenario_features end; s_target := 1 |};
              {| s_features := realistic_bounds
               match add_noise_all scenario_features (gauss (still_draws 0)) with
               | Ok f => f | Err _ => scenario_features end; s_target := 1 |}])).
  reflexivity.
Defined.

(** X8: a column that is zero in every row of the table is zero in every
    row [augment_data] returns: the noise is scaled by the magnitude of
    the value, and the clamps leave zero alone. *)
Theorem augment_data_keeps_zero_columns (rng : nat → Draw) (df : list Sample)
    (n : nat) (X : list Features) (y : list nat) (col : Features → Q) :
  augment_data rng df n = Ok (X, y) →
  col ∈ feature_column_values →
  Forall (λ src, (col (s_features src) == 0)%Q) df →
  Forall (λ f, (col f == 0)%Q) X.
Proof.
  unfold augment_data.
  destruct (augment_loop df rng 0 n) as [rows|] eqn:Hrows; simpl; [|done].
  intros [= <- <-] Hcol Hzero.
  pose proof (augment_loop_sources _ _ _ _ _ Hrows) as Hall.
  rewrite Forall_forall in Hzero. apply Forall_forall. intros f.
  rewrite fmap_app, elem_of_app.
  intros [Hin|Hin]; apply list_elem_of_fmap in Hin as (row & -> & Hrow).
  - by apply Hzero.
  - destruct (proj1 (Forall_forall _ _) Hall row Hrow) as (src & Hsrc & _ & Hz).
    apply (Hz col Hcol). by apply Hzero.
Qed.

Lemma augment_data_keeps_zero_columns_witness :
  Forall (λ f, (pollen_level f == 0)%Q)
    match augment_data still_draws
            [{| s_features := gauss (still_draws 0); s_target := 0 |}] 2 with
    | Ok (X, _) => X
    | Err _ => []
    end.
Proof.
  apply (augment_data_keeps_zero_columns still_draws
           [{| s_features := gauss (still_draws 0); s_target := 0 |}] 2 _
           [0; 0; 0]%nat pollen_level).
  - reflexivity.
  - unfold feature_column_values. set_solver.
  - by repeat constructor.
Defined.

(** ** Prediction: what a successful call returns *)

Section prediction_result.

Lemma py_max_foldl (a : Q) (l : list Q) :
  let m := foldl (λ m b, if Qlt_bool m b then b else m) a l in
  m ∈ a :: l ∧ (a <= m)%Q ∧ ∀ p, p ∈ l → (p <= m)%Q.
Proof.
  revert a. induction l as [|b l IH]; intros a; simpl.
  - split; [left|]. split; [apply Qle_refl|]. by intros p ?%elem_of_nil.
  - destruct (Qlt_bool a b) eqn:Hab.
    + apply Qlt_bool_true in Hab. destruct (IH b) as (Hin & Hge & Hall).
      split; [by right|]. split.
      * eapply Qle_trans; [apply Qlt_le_weak, Hab|done].
      * intros p [->|Hp]%elem_of_cons; auto.
    + apply Qlt_bool_false in Hab. destruct (IH a) as (Hin & Hge & Hall).
      split; [|split; [done|]].
      * apply elem_of_cons in Hin as [->|Hin]; [left|right; by right].
      * intros p [->|Hp]%elem_of_cons; [|auto].
        eapply Qle_trans; [apply Hab|done].
Qed.

(** [max(probabilities)] is one of the probabilities and bounds them all. *)
Lemma py_max_spec (l : list Q) (m : Q) :
  py_max l = Ok m → m ∈ l ∧ ∀ p, p ∈ l → (p <= m)%Q.
Proof.
  destruct l as [|a l]; simpl; [done|]. intros [= <-].
  destruct (py_max_foldl a l) as (Hin & Hge & Hall).
  split; [done|]. intros p [->|Hp]%elem_of_cons; auto.
Qed.

Lemma prediction_dict_lookup rl cf pr :
  let result :=
    dict_of [("risk_level", rl); ("confidence", cf); ("probabilities", pr)] in
  result !! "risk_level" = Some rl
  ∧ result !! "confidence" = Some cf
  ∧ result !! "probabilities" = Some pr
  ∧ result !! "xai_explanations" = None
  ∧ result !! "xai_error" = None.
Proof. by vm_compute. Qed.

Lemma py_index_ok {A} (l : list A) i a : py_index l i = Ok a → l !! i = Some a.
Proof. unfold py_index. by destruct (l !! i); intros [= <-]. Qed.

Lemma inverse_transform_ok le i c :
  inverse_transform le i = Ok c → classes_ le !! i = Some c.
Proof. unfold inverse_transform. by destruct (classes_ le !! i); intros [= <-]. Qed.

End prediction_result.

(** X9: asking for explanations never changes the prediction. With
    [include_xai] the call fails exactly when it fails without, with the
    same exception, and on success returns the same dictionary with one
    extra key: [xai_explanations] when the explanation module imports, and
    [xai_error], holding the text of the import's exception, when it does
    not. Without [include_xai] the outcome depends neither on the
    explanation libraries nor on the import, and has neither key. *)
Theorem explanations_never_change_prediction (fs : filesystem)
    (libs libs' : Libs) (import_xai_explainer import' : res unit)
    (x : Features) (model_type : string) :
  predict_asthma_risk fs libs import_xai_explainer x model_type true =
    match predict_asthma_risk fs libs import_xai_explainer x model_type false with
    | Ok result =>
        match import_xai_explainer with
        | Ok _ =>
            Ok (<["xai_explanations" :=
                    VDict (get_xai_explanation fs libs x "both")]> result)
        | Err e => Ok (<["xai_error" := VStr (exn_msg e)]> result)
        end
    | Err e => Err e
    end
  ∧ predict_asthma_risk fs libs import_xai_explainer x model_type false
    = predict_asthma_risk fs libs' import' x model_type false
  ∧ match predict_asthma_risk fs libs import_xai_explainer x model_type false with
    | Ok result =>
        result !! "xai_explanations" = None ∧ result !! "xai_error" = None
    | Err _ => True
    end.
Proof.
  unfold predict_asthma_risk, mbind, res_bind.
  destruct (load_model fs model_type) as [[[m le] cols]|]; simpl; [|done].
  destruct (predict m [features_list x]) as [preds|]; simpl; [|done].
  destruct (py_index preds 0) as [pred|]; simpl; [|done].
  destruct (predict_proba m) as [pp|]; simpl.
  - destruct (pp [features_list x]) as [rows|]; simpl; [|done].
    destruct (py_index rows 0) as [row|]; simpl; [|done].
    destruct (inverse_transform le pred) as [label|]; simpl; [|done].
    destruct (py_max row) as [conf|]; simpl; [|done].
    split; [by destruct import_xai_explainer|]. split; [done|].
    apply prediction_dict_lookup.
  - destruct (inverse_transform le pred) as [label|]; simpl; [|done].
    split; [by destruct import_xai_explainer|]. split; [done|].
    apply prediction_dict_lookup.
Qed.

(** X10: a successful prediction. The risk level is the class name the
    encoder holds at the index the model predicted. When the model has no
    probability method, confidence and probabilities are [None]; when it
    has one, the confidence is one of the class probabilities and no
    probability exceeds it, and (class names being distinct) the
    probabilities entry maps the i-th class name to the i-th probability. *)
Theorem prediction_result_fields (fs : filesystem) (libs : Libs)
    (import_xai_explainer : res unit) (x : Features) (model_type : string)
    (include_xai : bool) (result : gmap string value) :
  predict_asthma_risk fs libs import_xai_explainer x model_type include_xai
    = Ok result →
  ∃ m le cols preds pred label,
    load_model fs model_type = Ok (m, le, cols)
    ∧ predict m [features_list x] = Ok preds
    ∧ preds !! 0%nat = Some pred
    ∧ classes_ le !! pred = Some label
    ∧ result !! "risk_level" = Some (VStr label)
    ∧ match predict_proba m with
      | None =>
          result !! "confidence" = Some VNone
          ∧ result !! "probabilities" = Some VNone
      | Some pp =>
          ∃ rows row conf probs,
            pp [features_list x] = Ok rows
            ∧ rows !! 0%nat = Some row
            ∧ result !! "confidence" = Some (VNum conf)
            ∧ conf ∈ row
            ∧ (∀ p, p ∈ row → (p <= conf)%Q)
            ∧ result !! "probabilities" = Some (VDict probs)
            ∧ (NoDup (classes_ le) →
               ∀ i c p, classes_ le !! i = Some c → row !! i = Some p →
                        probs !! c = Some (VNum p))
      end.
Proof.
  unfold predict_asthma_risk, mbind, res_bind.
  destruct (load_model fs model_type) as [[[m le] cols]|]; simpl; [|done].
  destruct (predict m [features_list x]) as [preds|] eqn:Hpreds; simpl; [|done].
  destruct (py_index preds 0) as [pred|] eqn:Hpred; simpl; [|done].
  apply py_index_ok in Hpred.
  destruct (predict_proba m) as [pp|] eqn:Hpp; simpl.
  - destruct (pp [features_list x]) as [rows|] eqn:Hrows; simpl; [|done].
    destruct (py_index rows 0) as [row|] eqn:Hrow; simpl; [|done].
    apply py_index_ok in Hrow.
    destruct (inverse_transform le pred) as [label|] eqn:Hlabel; simpl; [|done].
    apply inverse_transform_ok in Hlabel.
    destruct (py_max row) as [conf|] eqn:Hmax; simpl; [|done].
    destruct (py_max_spec row conf Hmax) as [Hin Hall].
    intros [= <-]. exists m, le, cols, preds, pred, label. rewrite Hpp.
    repeat (split; [done|]).
    match goal with
    | |- context [dict_of [("risk_level", ?rl); ("confidence", ?cf);
                           ("probabilities", ?pr)]] =>
        destruct (prediction_dict_lookup rl cf pr) as (Hrl & Hcf & Hpr & _)
    end.
    split; [destruct include_xai; [destruct import_xai_explainer; by rewrite lookup_insert_ne|done]|].
    eexists rows, row, conf, _. repeat (split; [done|]).
    split; [destruct include_xai; [destruct import_xai_explainer; by rewrite lookup_insert_ne|done]|].
    split; [done|]. split; [done|].
    split; [destruct include_xai; [destruct import_xai_explainer; by rewrite lookup_insert_ne|done]|].
    intros Hnd i c p Hc Hp. apply (dict_of_zip_lookup _ _ i); [done..|].
    by rewrite list_lookup_fmap, Hp.
  - destruct (inverse_transform le pred) as [label|] eqn:Hlabel; simpl; [|done].
    apply inverse_transform_ok in Hlabel.
    intros [= <-]. exists m, le, cols, preds, pred, label. rewrite Hpp.
    repeat (split; [done|]).
    match goal with
    | |- context [dict_of [("risk_level", ?rl); ("confidence", ?cf);
                           ("probabilities", ?pr)]] =>
        destruct (prediction_dict_lookup rl cf pr) as (Hrl & Hcf & Hpr & _)
    end.
    destruct include_xai; [destruct import_xai_explainer|];
      rewrite ?lookup_insert_ne by done; done.
Qed.

Lemma prediction_result_fields_witness :
  ∃ m le cols preds pred label,
    load_model nine_columns "best" = Ok (m, le, cols)
    ∧ predict m [features_list scenario_features] = Ok preds
    ∧ preds !! 0%nat = Some pred
    ∧ classes_ le !! pred = Some label
    ∧ match predict_asthma_risk nine_columns failing_libs (Ok ())
              scenario_features "best" false with
      | Ok r => r
      | Err _ => ∅
      end !! "risk_level" = Some (VStr label)
    ∧ match predict_proba m with
      | None =>
          match predict_asthma_risk nine_columns failing_libs (Ok ())
                  scenario_features "best" false with
          | Ok r => r
          | Err _ => ∅
          end !! "confidence" = Some VNone
          ∧ match predict_asthma_risk nine_columns failing_libs (Ok ())
                    scenario_features "best" false with
            | Ok r => r
            | Err _ => ∅
            end !! "probabilities" = Some VNone
      | Some pp =>
          ∃ rows row conf probs,
            pp [features_list scenario_features] = Ok rows
            ∧ rows !! 0%nat = Some row
            ∧ match predict_asthma_risk nine_columns failing_libs (Ok ())
                      scenario_features "best" false with
              | Ok r => r
              | Err _ => ∅
              end !! "confidence" = Some (VNum conf)
            ∧ conf ∈ row
            ∧ (∀ p, p ∈ row → (p <= conf)%Q)
            ∧ match predict_asthma_risk nine_columns failing_libs (Ok ())
                      scenario_features "best" false with
              | Ok r => r
              | Err _ => ∅
              end !! "probabilities" = Some (VDict probs)
            ∧ (NoDup (classes_ le) →
               ∀ i c p, classes_ le !! i = Some c → row !! i = Some p →
                        probs !! c = Some (VNum p))
      end.
Proof.
  apply (prediction_result_fields nine_columns failing_libs (Ok ())
           scenario_features "best" false).
  reflexivity.
Defined.

(** X11: [get_feature_importance] never raises. It answers [None] when
    the artifacts do not load or the classifier has no
    [feature_importances_]; otherwise it answers a dictionary whose keys
    are feature-column names and which, the names being distinct, maps the
    i-th column to the i-th importance. *)
Theorem feature_importance_answer (importances : Classifier → list Q)
    (fs : filesystem) (model_type : string) :
  match get_feature_importance importances fs model_type with
  | None =>
      (∃ e, load_model fs model_type = Err e)
      ∨ (∃ m le cols,
           load_model fs model_type = Ok (m, le, cols)
           ∧ has_feature_importances_ (classifier m) = false)
  | Some d =>
      ∃ m le cols,
        load_model fs model_type = Ok (m, le, cols)
        ∧ has_feature_importances_ (classifier m) = true
        ∧ (∀ k, is_Some (d !! k) → k ∈ cols)
        ∧ (NoDup cols →
           ∀ i k q, cols !! i = Some k →
                    importances (classifier m) !! i = Some q →
                    d !! k = Some (VNum q))
  end.
Proof.
  unfold get_feature_importance.
  destruct (load_model fs model_type) as [[[m le] cols]|e]; [|left; by eexists].
  destruct (has_feature_importances_ (classifier m)) eqn:Hfi.
  - exists m, le, cols. repeat split; [done|apply dict_of_zip_key|].
    intros Hnd i k q Hk Hq. apply (dict_of_zip_lookup _ _ i); [done..|].
    by rewrite list_lookup_fmap, Hq.
  - right. by exists m, le, cols.
Qed.

(** ** Explanation: one method at a time, and what a failed construction
    reports *)

Section explanation_methods.

Lemma get_xai_explanation_shap fs libs x :
  get_xai_explanation fs libs x "shap" =
    match XAIExplainer_init fs "best" with
    | Ok explainer =>
        {[ "shap" := VDict (explain_shap libs explainer (features_list x)).1 ]}
    | Err e =>
        {[ "error" := VStr ("XAI explanation failed: " +:+ exn_msg e) ]}
    end.
Proof.
  unfold get_xai_explanation.
  destruct (XAIExplainer_init fs "best") as [explainer|e]; simpl; [|done].
  by destruct (explain_shap libs explainer (features_list x)).
Qed.

Lemma get_xai_explanation_lime fs libs x :
  get_xai_explanation fs libs x "lime" =
    match XAIExplainer_init fs "best" with
    | Ok explainer =>
        {[ "lime" := VDict (explain_lime libs explainer (features_list x) 10).1 ]}
    | Err e =>
        {[ "error" := VStr ("XAI explanation failed: " +:+ exn_msg e) ]}
    end.
Proof.
  unfold get_xai_explanation.
  destruct (XAIExplainer_init fs "best") as [explainer|e]; simpl; [|done].
  by destruct (explain_lime libs explainer (features_list x) 10).
Qed.

Lemma get_xai_explanation_both fs libs x :
  get_xai_explanation fs libs x "both" =
    match XAIExplainer_init fs "best" with
    | Ok explainer =>
        <["lime" := VDict (explain_lime libs explainer (features_list x) 10).1]>
          {[ "shap" := VDict (explain_shap libs explainer (features_list x)).1 ]}
    | Err e =>
        {[ "error" := VStr ("XAI explanation failed: " +:+ exn_msg e) ]}
    end.
Proof.
  unfold get_xai_explanation.
  destruct (XAIExplainer_init fs "best") as [explainer|e]; simpl; [|done].
  destruct (explain_shap libs explainer (features_list x))
    as [shap explainer'] eqn:Hshap.
  pose proof (explain_shap_frame libs explainer (features_list x)) as Hframe.
  rewrite Hshap in Hframe. simpl in Hframe.
  destruct Hframe as (Hm & Hle & Hc & Hl).
  pose proof (explain_lime_payload_ext libs explainer explainer'
                (features_list x) 10 Hm Hle Hc Hl) as Hext.
  destruct (explain_lime libs explainer' (features_list x) 10)
    as [lime explainer''].
  simpl in *. by subst lime.
Qed.

End explanation_methods.

(** X12: the methods do not interact. The result for 'both' is the
    result for 'lime' joined with the result for 'shap': with the
    explainer constructed, 'shap' alone gives exactly the [shap] slot,
    'lime' alone exactly the [lime] slot, and 'both' the same two
    payloads; with construction failing all three give the same single
    [error] entry. *)
Theorem both_is_shap_joined_with_lime (fs : filesystem) (libs : Libs)
    (x : Features) :
  get_xai_explanation fs libs x "both"
    = get_xai_explanation fs libs x "lime" ∪ get_xai_explanation fs libs x "shap"
  ∧ match XAIExplainer_init fs "best" with
    | Ok explainer =>
        get_xai_explanation fs libs x "shap"
          = {[ "shap" := VDict (explain_shap libs explainer (features_list x)).1 ]}
        ∧ get_xai_explanation fs libs x "lime"
          = {[ "lime" :=
                 VDict (explain_lime libs explainer (features_list x) 10).1 ]}
    | Err e =>
        get_xai_explanation fs libs x "shap"
          = {[ "error" := VStr ("XAI explanation failed: " +:+ exn_msg e) ]}
        ∧ get_xai_explanation fs libs x "lime"
          = {[ "error" := VStr ("XAI explanation failed: " +:+ exn_msg e) ]}
    end.
Proof.
  rewrite get_xai_explanation_both, get_xai_explanation_shap,
    get_xai_explanation_lime.
  destruct (XAIExplainer_init fs "best") as [explainer|e].
  - split; [|done]. by rewrite insert_union_singleton_l.
  - split; [|done]. by rewrite (idemp_L (∪)).
Qed.

Section explanation_construction.

Lemma XAIExplainer_init_fresh fs model_type explainer :
  XAIExplainer_init fs model_type = Ok explainer →
  explainer_shap explainer = None ∧ explainer_lime explainer = None.
Proof.
  unfold XAIExplainer_init.
  destruct (load_model fs model_type) as [[[m le] cols]|]; simpl; [|done].
  by intros [= <-].
Qed.

Lemma initialize_shap_failed libs self X_sample :
  (initialize_shap libs self X_sample).1 = false →
  (initialize_shap libs self X_sample).2 = self.
Proof.
  unfold initialize_shap.
  match goal with
  | |- context [match ?b with Ok _ => _ | Err _ => _ end] => by destruct b
  end.
Qed.

Lemma initialize_lime_failed libs self training_data :
  (initialize_lime libs self training_data).1 = false →
  (initialize_lime libs self training_data).2 = self.
Proof.
  unfold initialize_lime.
  match goal with
  | |- context [match ?b with Ok _ => _ | Err _ => _ end] => by destruct b
  end.
Qed.

Lemma explain_shap_unconstructed libs self features scaled :
  explainer_shap self = None →
  (initialize_shap libs self None).1 = false →
  transform (scaler (xai_model self)) [features] = Ok scaled →
  (explain_shap libs self features).1
  = shap_error_payload (none_has_no_attribute "shap_values").
Proof.
  intros Hnone Hinit Hscaled. unfold explain_shap.
  rewrite Hnone, (initialize_shap_failed _ _ _ Hinit), Hnone, Hscaled. done.
Qed.

Lemma explain_lime_unconstructed libs self features n :
  explainer_lime self = None →
  (initialize_lime libs self None).1 = false →
  (explain_lime libs self features n).1
  = lime_error_payload (none_has_no_attribute "explain_instance").
Proof.
  intros Hnone Hinit. unfold explain_lime.
  rewrite Hnone, (initialize_lime_failed _ _ _ Hinit), Hnone. done.
Qed.

End explanation_construction.

(** X13: the reason a SHAP or LIME explainer could not be constructed
    never reaches the caller. [initialize_shap] and [initialize_lime]
    swallow the constructor's exception, and the explanation then fails on
    the missing explainer: when both initialisations fail (and the scaler
    accepts the vector), method 'both' returns the two slots with the
    fixed ['NoneType' object has no attribute ...] messages, whatever the
    constructors raised. *)
Theorem failed_construction_reports_missing_attribute (fs : filesystem)
    (libs : Libs) (x : Features) (explainer : XAIExplainer) (scaled : Matrix) :
  XAIExplainer_init fs "best" = Ok explainer →
  (initialize_shap libs explainer None).1 = false →
  (initialize_lime libs explainer None).1 = false →
  transform (scaler (xai_model explainer)) [features_list x] = Ok scaled →
  get_xai_explanation fs libs x "both" =
    <["lime" := VDict (lime_error_payload
                         (none_has_no_attribute "explain_instance"))]>
      {[ "shap" := VDict (shap_error_payload
                            (none_has_no_attribute "shap_values")) ]}.
Proof.
  intros Hinit Hshap Hlime Hscaled.
  destruct (XAIExplainer_init_fresh _ _ _ Hinit) as [Hs Hl].
  rewrite get_xai_explanation_both, Hinit.
  rewrite (explain_shap_unconstructed _ _ _ _ Hs Hshap Hscaled).
  by rewrite (explain_lime_unconstructed _ _ _ _ Hl Hlime).
Qed.

Lemma failed_construction_reports_missing_attribute_witness :
  get_xai_explanation nine_columns failing_libs scenario_features "both" =
    <["lime" := VDict (lime_error_payload
                         (none_has_no_attribute "explain_instance"))]>
      {[ "shap" := VDict (shap_error_payload
                            (none_has_no_attribute "shap_values")) ]}.
Proof.
  exact (failed_construction_reports_missing_attribute nine_columns
           failing_libs scenario_features _ _ eq_refl eq_refl eq_refl eq_refl).
Defined.

(** ** The report file: [save_report], [verify_report], time frames *)

Section report_file.
Import SymptomDataCollector.

Lemma flag_weight_str_bool (b : bool) w :
  flag_weight (str_bool b) w = if b then w else 0.
Proof. by destruct b. Qed.

Lemma present_weight_default (m : gmap string bool) k w :
  present_weight m k w = if default false (m !! k) then w else 0.
Proof. unfold present_weight. by destruct (m !! k) as [[]|]. Qed.

Lemma tier_str_if (a b : bool) :
  tier_str (if a then High else if b then Moderate else Low)
  = if a then "High" else if b then "Moderate" else "Low".
Proof. by destruct a, b. Qed.

Lemma save_report_row rt now file data :
  ∃ row,
    save_report rt now file data = (report_id row, (file ++ [row])%list)
    ∧ timestamp row = default now (rd_timestamp data)
    ∧ user_id row = default "anonymous" (rd_user_id data)
    ∧ verified row = "False"
    ∧ severity row
      = tier_str (_calculate_severity (default ∅ (rd_symptoms data)))
    ∧ row_consistent row.
Proof.
  eexists. split.
  { unfold save_report. apply pair_equal_spec. split; cycle 1; reflexivity. }
  simpl. repeat split.
  unfold row_consistent, row_total. simpl.
  rewrite !flag_weight_str_bool, calculate_severity_total, tier_str_if.
  unfold recognized_total. by rewrite !present_weight_default.
Qed.

Lemma mark_verified_same row : same_but_verified row (mark_verified row).
Proof. by repeat split. Qed.

Lemma same_but_verified_refl row : same_but_verified row row.
Proof. by repeat split. Qed.

Lemma same_but_verified_consistent r1 r2 :
  same_but_verified r1 r2 → row_consistent r1 → row_consistent r2.
Proof.
  unfold row_consistent, row_total.
  intros (_ & _ & _ & _ & _ & -> & -> & -> & -> & -> & ->). done.
Qed.

End report_file.

(** X14: [save_report] appends one line and touches no other. The new
    line carries the returned id, is unverified, and its severity is the
    one its own five symptom columns give under the weights 3, 3, 2, 2, 1
    and the thresholds 5 and 3; it is also the severity the view's
    [calculate_severity] computes from the same symptoms. *)
Theorem save_report_appends_consistent_row (rt : PyRuntime) (now : string)
    (file : list ReportRow) (data : ReportData) :
  ∃ row,
    save_report rt now file data = (report_id row, (file ++ [row])%list)
    ∧ verified row = "False"
    ∧ row_consistent row
    ∧ severity row
      = tier_str (SymptomReportView.calculate_severity
                    (default ∅ (rd_symptoms data))).
Proof.
  destruct (save_report_row rt now file data)
    as (row & Hsave & _ & _ & Hv & Hsev & Hc).
  exists row. by repeat split.
Qed.

Section report_verification.

Lemma verify_report_rows file id :
  (verify_report file id).2 =
    (λ row, if bool_decide (report_id row = id) then mark_verified row else row)
      <$> file.
Proof. reflexivity. Qed.

Lemma mark_verified_idemp row : mark_verified (mark_verified row) = mark_verified row.
Proof. reflexivity. Qed.

Lemma report_id_mark_verified row : report_id (mark_verified row) = report_id row.
Proof. reflexivity. Qed.

End report_verification.

(** X15: [verify_report] answers [True] whether or not a line has the id.
    It keeps the number and the order of the lines, changes no column
    other than [verified], sets [verified] to "True" on every line with
    the id (and keeps each line's severity consistent with its symptom
    columns), leaves the lines with another id as they were, and leaves
    the whole file as it was when no line has the id. *)
Theorem verify_report_marks_matching_lines (file : list ReportRow) (id : string) :
  (verify_report file id).1 = true
  ∧ Forall2
      (λ row row',
         same_but_verified row row'
         ∧ verified row'
           = (if bool_decide (report_id row = id) then "True" else verified row)
         ∧ (row_consistent row → row_consistent row'))
      file (verify_report file id).2
  ∧ (id ∉ report_id <$> file → (verify_report file id).2 = file).
Proof.
  split; [done|]. rewrite verify_report_rows. split.
  - apply Forall2_fmap_r, Forall_Forall2_diag, Forall_forall. intros row _.
    unfold compose. cbv beta.
    destruct (bool_decide (report_id row = id)).
    + split; [apply mark_verified_same|]. split; [done|].
      apply same_but_verified_consistent, mark_verified_same.
    + split; [apply same_but_verified_refl|]. done.
  - intros Hid. induction file as [|row file IH]; simpl; [done|].
    rewrite fmap_cons, not_elem_of_cons in Hid. destruct Hid as [Hne Hid].
    rewrite bool_decide_eq_false_2 by done. f_equal. by apply IH.
Qed.

(** X16: verifying is idempotent and the order of two verifications does
    not matter. *)
Theorem verify_report_idempotent_commutes (file : list ReportRow)
    (id1 id2 : string) :
  (verify_report (verify_report file id1).2 id1).2 = (verify_report file id1).2
  ∧ (verify_report (verify_report file id1).2 id2).2
    = (verify_report (verify_report file id2).2 id1).2.
Proof.
  rewrite !verify_report_rows, <- !list_fmap_compose. split.
  - apply list_fmap_ext. intros i row _. simpl.
    destruct (bool_decide (report_id row = id1)) eqn:Hb; simpl;
      by rewrite Hb.
  - apply list_fmap_ext. intros i row _. simpl.
    destruct (bool_decide (report_id row = id1)) eqn:Hb1,
      (bool_decide (report_id row = id2)) eqn:Hb2; simpl;
      by rewrite ?Hb1, ?Hb2.
Qed.

(** X17: report ids are not unique. The id is "rep_" followed by a number
    below 1000000 computed from the concatenation of timestamp and user
    id only, so two reports whose concatenations coincide get the same id
    whatever the hash; verifying that id after saving both marks both
    lines. *)
Theorem colliding_reports_share_an_id (rt : PyRuntime) (now : string)
    (file : list ReportRow) (d1 d2 : ReportData) :
  default now (rd_timestamp d1) +:+ default "anonymous" (rd_user_id d1)
  = default now (rd_timestamp d2) +:+ default "anonymous" (rd_user_id d2) →
  ∃ n r1 r2,
    0 <= n < 1000000
    ∧ (save_report rt now file d1).1 = "rep_" +:+ pretty n
    ∧ (save_report rt now (save_report rt now file d1).2 d2).1
      = "rep_" +:+ pretty n
    ∧ (verify_report
         (save_report rt now (save_report rt now file d1).2 d2).2
         ("rep_" +:+ pretty n)).2
      = ((verify_report file ("rep_" +:+ pretty n)).2 ++ [r1; r2])%list
    ∧ verified r1 = "True" ∧ verified r2 = "True".
Proof.
  intros Hcat.
  destruct (save_report_row rt now file d1) as (row1 & Hs1 & _).
  destruct (save_report_row rt now (file ++ [row1]) d2) as (row2 & Hs2 & _).
  set (n := py_hash rt (default now (rd_timestamp d1)
                          +:+ default "anonymous" (rd_user_id d1)) `mod` 1000000).
  assert (Hid1 : report_id row1 = "rep_" +:+ pretty n).
  { change (report_id row1) with (report_id row1, (file ++ [row1])%list).1.
    by rewrite <- Hs1. }
  assert (Hid2 : report_id row2 = "rep_" +:+ pretty n).
  { change (report_id row2)
      with (report_id row2, ((file ++ [row1]) ++ [row2])%list).1.
    rewrite <- Hs2. unfold save_report, make_report_id, n. simpl.
    by rewrite Hcat. }
  exists n, (mark_verified row1), (mark_verified row2).
  rewrite Hs1. cbn [fst snd]. rewrite Hs2. cbn [fst snd].
  split; [by apply Z.mod_pos_bound|].
  split; [done|]. split; [done|]. split; [|done].
  rewrite !verify_report_rows, !fmap_app. simpl.
  rewrite !bool_decide_eq_true_2 by done.
  by rewrite <- app_assoc.
Qed.

Lemma colliding_reports_share_an_id_witness :
  ∃ n r1 r2,
    0 <= n < 1000000
    ∧ (save_report example_runtime "now" [] report_ab_c).1 = "rep_" +:+ pretty n
    ∧ (save_report example_runtime "now"
         (save_report example_runtime "now" [] report_ab_c).2 report_a_bc).1
      = "rep_" +:+ pretty n
    ∧ (verify_report
         (save_report example_runtime "now"
            (save_report example_runtime "now" [] report_ab_c).2 report_a_bc).2
         ("rep_" +:+ pretty n)).2
      = ((verify_report [] ("rep_" +:+ pretty n)).2 ++ [r1; r2])%list
    ∧ verified r1 = "True" ∧ verified r2 = "True".
Proof.
  apply (colliding_reports_share_an_id example_runtime "now" []
           report_ab_c report_a_bc).
  reflexivity.
Defined.

Section report_timeframe.

Lemma in_timeframe_true rt s e row :
  in_timeframe rt s e row = true
  ↔ ∃ t, parse_instant rt (timestamp row) = Some t ∧ s <= t <= e.
Proof.
  unfold in_timeframe. destruct (parse_instant rt (timestamp row)) as [t|].
  - rewrite andb_true_iff, !Z.leb_le. split.
    + intros [? ?]. by exists t.
    + by intros (? & [= <-] & ? & ?).
  - split; [done|]. by intros (? & [=] & _).
Qed.

Lemma timeframe_empty_range rt file s e :
  e < s → get_reports_by_timeframe rt file s e = [].
Proof.
  intros Hes. unfold get_reports_by_timeframe.
  induction file as [|row file IH]; [done|].
  rewrite filter_cons_False; [done|].
  intros Hin%Is_true_true%in_timeframe_true. destruct Hin as (t & _ & ? & ?). lia.
Qed.

End report_timeframe.

(** X18: time-frame queries. Every line returned has a timestamp that
    parses and lies between the bounds, lines come back in file order,
    and a range whose end precedes its start returns nothing. Saving a
    report adds its line at the end of the answer exactly when its
    timestamp parses and lies in the range, and changes nothing else in
    the answer. *)
Theorem timeframe_query_after_save (rt : PyRuntime) (now : string)
    (file : list ReportRow) (data : ReportData) (start_date end_date : Z) :
  Forall
    (λ row, ∃ t, parse_instant rt (timestamp row) = Some t
                 ∧ start_date <= t <= end_date)
    (get_reports_by_timeframe rt file start_date end_date)
  ∧ get_reports_by_timeframe rt file start_date end_date `sublist_of` file
  ∧ (end_date < start_date →
       get_reports_by_timeframe rt file start_date end_date = [])
  ∧ ∃ row,
      (save_report rt now file data).2 = (file ++ [row])%list
      ∧ timestamp row = default now (rd_timestamp data)
      ∧ get_reports_by_timeframe rt (save_report rt now file data).2
          start_date end_date
        = (get_reports_by_timeframe rt file start_date end_date
             ++ if in_timeframe rt start_date end_date row then [row] else [])%list.
Proof.
  split; [|split; [|split]].
  - apply Forall_forall. intros row Hin.
    apply list_elem_of_filter in Hin as [Hin _].
    by apply in_timeframe_true, Is_true_true.
  - apply sublist_filter.
  - apply timeframe_empty_range.
  - destruct (save_report_row rt now file data) as (row & Hsave & Hts & _).
    exists row. rewrite Hsave. cbn [fst snd]. split; [done|]. split; [done|].
    unfold get_reports_by_timeframe. rewrite filter_app. f_equal.
    destruct (in_timeframe rt start_date end_date row) eqn:Hin.
    + rewrite filter_cons_True; [by rewrite filter_nil|].
      by apply Is_true_true.
    + rewrite filter_cons_False; [by rewrite filter_nil|].
      intros Ht%Is_true_true. congruence.
Qed.


(** ** The training command *)

Section training_command.


End training_command.




